(** * Heart Risk Analyzer: the asset loader, the feature encoder and the scorer

    A shallow embedding of [app.py]: Python dictionaries keep their insertion
    order, a one-row [pandas] table is a list of column names with a list of
    cells, exceptions are an explicit result type, and the Streamlit script
    is a function from the disk and the widget state to the list of elements
    it renders. *)

From Stdlib Require Import ZArith List String Ascii Bool Lia.
From Stdlib Require Import Floats.PrimFloat.
From Stdlib Require Import Uint63.
Import ListNotations.

Set Warnings "-inexact-float".

Local Open Scope string_scope.
Local Open Scope Z_scope.

(** ** Python values, exceptions and dictionaries *)

Module Py.

(** The numbers the form produces: [int] for sliders, number inputs and
    indicator cells, [float] (binary64) for the oldpeak slider. *)
Inductive value : Type :=
| Int (z : Z)
| Float (x : float).

Inductive exn : Type :=
| FileNotFoundError (path : string)
| KeyError (key : string)
| IndexError
| OtherError (msg : string).

Inductive result (A : Type) : Type :=
| Return (a : A)
| Raise (e : exn).

Arguments Return {A} a.
Arguments Raise {A} e.

Definition bind {A B : Type} (r : result A) (k : A -> result B) : result B :=
  match r with
  | Return a => k a
  | Raise e => Raise e
  end.

(** An object on the heap: where it lives and what it holds.  Two names are
    bound to the same object when the addresses agree. *)
Record object (A : Type) : Type := mkObject {
  addr : nat;
  val : A
}.

Arguments mkObject {A} addr val.
Arguments addr {A} o.
Arguments val {A} o.

(** A [dict]: the items in insertion order, every key at most once. *)
Definition dict : Type := list (string * value).

Definition keys (d : dict) : list string := map fst d.
Definition values (d : dict) : list value := map snd d.

Fixpoint get (d : dict) (k : string) : option value :=
  match d with
  | [] => None
  | (k', v) :: rest => if String.eqb k' k then Some v else get rest k
  end.

(** [d[k] = v]: an existing key keeps its place, a new key goes last. *)
Fixpoint setitem (d : dict) (k : string) (v : value) : dict :=
  match d with
  | [] => [(k, v)]
  | (k', v') :: rest =>
      if String.eqb k' k then (k', v) :: rest else (k', v') :: setitem rest k v
  end.

(** [{k1: v1, ..., kn: vn}], the items evaluated left to right. *)
Definition display (items : list (string * value)) : dict :=
  fold_left (fun d kv => setitem d (fst kv) (snd kv)) items [].

(** [{k: v for k in ks}] *)
Definition comprehension (ks : list string) (v : value) : dict :=
  fold_left (fun d k => setitem d k v) ks [].

(** [d.update(other)] *)
Definition update (d other : dict) : dict :=
  fold_left (fun acc kv => setitem acc (fst kv) (snd kv)) other d.

End Py.

Notation "x <- r ;; k" := (Py.bind r (fun x => k))
  (at level 61, r at next level, right associativity).

(** ** The part of pandas the script uses *)

Module Pd.
Import Py.

Record DataFrame : Type := mkDataFrame {
  columns : list string;
  rows : list (list value)
}.

(** [pd.DataFrame([record])]: one row, the record's keys as columns. *)
Definition of_record (record : dict) : DataFrame :=
  {| columns := keys record; rows := [values record] |}.

Fixpoint index_of (c : string) (cols : list string) : option nat :=
  match cols with
  | [] => None
  | c' :: rest =>
      if String.eqb c' c then Some O
      else match index_of c rest with
           | Some i => Some (S i)
           | None => None
           end
  end.

(** The positions of the wanted labels; a label that is no column raises. *)
Fixpoint get_indexer (cols wanted : list string) : result (list nat) :=
  match wanted with
  | [] => Return []
  | c :: rest =>
      match index_of c cols with
      | None => Raise (KeyError c)
      | Some i => idx <- get_indexer cols rest ;; Return (i :: idx)
      end
  end.

Definition take (row : list value) (idx : list nat) : list value :=
  map (fun i => nth i row (Int 0)) idx.

(** [df[wanted]] with a list of labels. *)
Definition getitem (df : DataFrame) (wanted : list string) : result DataFrame :=
  idx <- get_indexer (columns df) wanted ;;
  Return {| columns := wanted; rows := map (fun r => take r idx) (rows df) |}.

(** The cell of the first row under the first column called [c]. *)
Definition cell (df : DataFrame) (c : string) : option value :=
  match index_of c (columns df), rows df with
  | Some i, row :: _ => nth_error row i
  | _, _ => None
  end.

End Pd.

(** ** The estimators read from disk *)

Module Sk.
Import Py.

Definition ndarray : Type := list (list float).

(** A fitted scaler: [transform(table) -> scaled rows]. *)
Record Scaler : Type := mkScaler {
  transform : Pd.DataFrame -> result ndarray
}.

(** A fitted classifier: [predict(rows) -> labels] and
    [predict_proba(rows) -> [[p0, p1], ...]]. *)
Record Classifier : Type := mkClassifier {
  predict : ndarray -> result (list Z);
  predict_proba : ndarray -> result ndarray
}.

End Sk.

(** ** The part of Streamlit the script uses *)

Module St.
Import Py.

(** The state of the server process: the entry [st.cache_data] keeps for a
    function without arguments (the pickled return value), the paths opened
    so far, and the number of objects built so far. *)
Record Process (C : Type) : Type := mkProcess {
  cache : option C;
  reads : list string;
  allocated : nat
}.

Arguments mkProcess {C} cache reads allocated.
Arguments cache {C} p.
Arguments reads {C} p.
Arguments allocated {C} p.

Definition fresh {C : Type} : Process C :=
  {| cache := None; reads := []; allocated := O |}.

(** Computations that may raise and that change the process state. *)
Definition io (C A : Type) : Type := Process C -> result A * Process C.

Definition ret {C A : Type} (a : A) : io C A := fun p => (Return a, p).

Definition bind {C A B : Type} (c : io C A) (k : A -> io C B) : io C B :=
  fun p =>
    match c p with
    | (Return a, p') => k a p'
    | (Raise e, p') => (Raise e, p')
    end.

(** Opening a path is recorded, whatever the outcome. *)
Definition opened {C A : Type} (path : string) (r : result A) : io C A :=
  fun p =>
    (r, {| cache := cache p; reads := reads p ++ [path];
           allocated := allocated p |}).

(** Building an object takes the next free address. *)
Definition new {C A : Type} (v : A) : io C (object A) :=
  fun p =>
    (Return {| addr := allocated p; val := v |},
     {| cache := cache p; reads := reads p; allocated := S (allocated p) |}).

(** [@st.cache_data] on a function without arguments.  The entry is the
    pickled return value: a hit unpickles it, which builds the objects anew,
    and does not run the body; a miss runs the body, stores the pickle of
    what it returns and hands that value back; an exception stores
    nothing. *)
Definition cache_data {A P : Type} (dumps : A -> P) (loads : P -> io P A)
    (body : io P A) : io P A :=
  fun p =>
    match cache p with
    | Some entry => loads entry p
    | None =>
        match body p with
        | (Return a, p') =>
            (Return a,
             {| cache := Some (dumps a); reads := reads p';
                allocated := allocated p' |})
        | (Raise e, p') => (Raise e, p')
        end
    end.

(** What a run of the script puts on the page. *)
Inductive element : Type :=
| page_config (page_title : string)
| theme_css
| error (body : string)
| success (body : string)
| info (body : string)
| write (body : string)
| title (body : string)
| markdown (body : string)
| subheader (body : string)
| caption (body : string)
| slider (label : string)
| number_input (label : string)
| selectbox (label : string)
| button (label : string)
| probability_markdown (probability : float)
| plotly_chart (gauge_value : float).

(** How a run ends: at the end of the script, at [st.stop()], or with an
    exception that nothing caught. *)
Inductive outcome : Type :=
| Completed
| Stopped
| Uncaught (e : exn).

End St.

Notation "x <~ c ;; k" := (St.bind c (fun x => k))
  (at level 61, c at next level, right associativity).

(** ** Files and [joblib.load] *)

Module Joblib.
Import Py.

(** What a path holds: nothing, a pickled object, or bytes that do not
    unpickle. *)
Inductive file (A : Type) : Type :=
| Absent
| Stored (content : A)
| Corrupt (msg : string).

Arguments Absent {A}.
Arguments Stored {A} content.
Arguments Corrupt {A} msg.

Definition read {A : Type} (path : string) (f : file A) : result A :=
  match f with
  | Absent => Raise (FileNotFoundError path)
  | Stored content => Return content
  | Corrupt msg => Raise (OtherError msg)
  end.

(** [joblib.load(path)]: open the path and build the object it holds. *)
Definition load {C A : Type} (path : string) (f : file A)
  : St.io C (object A) :=
  content <~ St.opened path (read path f) ;;
  St.new content.

End Joblib.

(** ** The form and the feature encoder *)

Module App.
Import Py Sk Joblib.

(** The values of the eleven widgets, as the script binds them. *)
Record FormInput : Type := mkFormInput {
  age : Z;
  sex : string;
  chest_pain : string;
  resting_bp : Z;
  cholesterol : Z;
  fasting_bs : Z;
  resting_ecg : string;
  max_hr : Z;
  exercise_angina : string;
  oldpeak : float;
  st_slope : string
}.

(** The options of the select boxes and the bounds of the sliders. *)
Definition sex_options : list string := ["M"; "F"].
Definition chest_pain_options : list string := ["ATA"; "NAP"; "TA"; "ASY"].
Definition fasting_bs_options : list Z := [0; 1].
Definition resting_ecg_options : list string := ["Normal"; "ST"; "LVH"].
Definition exercise_angina_options : list string := ["N"; "Y"].
Definition st_slope_options : list string := ["Up"; "Flat"; "Down"].

Definition valid_input (f : FormInput) : Prop :=
  18 <= age f <= 100 /\
  In (sex f) sex_options /\
  In (chest_pain f) chest_pain_options /\
  80 <= resting_bp f <= 200 /\
  100 <= cholesterol f <= 600 /\
  In (fasting_bs f) fasting_bs_options /\
  In (resting_ecg f) resting_ecg_options /\
  60 <= max_hr f <= 220 /\
  In (exercise_angina f) exercise_angina_options /\
  (PrimFloat.leb 0.0 (oldpeak f) = true /\
   PrimFloat.leb (oldpeak f) 6.2 = true) /\
  In (st_slope f) st_slope_options.

(** What every widget holds before the user touches it. *)
Definition default_input : FormInput :=
  {| age := 40; sex := "M"; chest_pain := "ATA"; resting_bp := 120;
     cholesterol := 200; fasting_bs := 0; resting_ecg := "Normal";
     max_hr := 150; exercise_angina := "N"; oldpeak := 1.0%float;
     st_slope := "Up" |}.

Definition raw_input (expected_columns : list string) (f : FormInput) : dict :=
  update (comprehension expected_columns (Int 0))
    (display
       [("Age", Int (age f)); ("RestingBP", Int (resting_bp f));
        ("Cholesterol", Int (cholesterol f)); ("FastingBS", Int (fasting_bs f));
        ("MaxHR", Int (max_hr f)); ("Oldpeak", Float (oldpeak f));
        ("Sex_" ++ sex f, Int 1); ("ChestPainType_" ++ chest_pain f, Int 1);
        ("RestingECG_" ++ resting_ecg f, Int 1);
        ("ExerciseAngina_" ++ exercise_angina f, Int 1);
        ("ST_Slope_" ++ st_slope f, Int 1)]).

Definition input_df (expected_columns : list string) (f : FormInput)
  : result Pd.DataFrame :=
  Pd.getitem (Pd.of_record (raw_input expected_columns f)) expected_columns.

(** The five categorical fields: prefix, options and current selection. *)
Inductive field : Type :=
| Sex | ChestPainType | RestingECG | ExerciseAngina | ST_Slope.

Definition field_prefix (fd : field) : string :=
  match fd with
  | Sex => "Sex_"
  | ChestPainType => "ChestPainType_"
  | RestingECG => "RestingECG_"
  | ExerciseAngina => "ExerciseAngina_"
  | ST_Slope => "ST_Slope_"
  end.

Definition field_options (fd : field) : list string :=
  match fd with
  | Sex => sex_options
  | ChestPainType => chest_pain_options
  | RestingECG => resting_ecg_options
  | ExerciseAngina => exercise_angina_options
  | ST_Slope => st_slope_options
  end.

Definition selected (fd : field) (f : FormInput) : string :=
  match fd with
  | Sex => sex f
  | ChestPainType => chest_pain f
  | RestingECG => resting_ecg f
  | ExerciseAngina => exercise_angina f
  | ST_Slope => st_slope f
  end.

(** The one-hot column a selection writes to. *)
Definition one_hot (fd : field) (f : FormInput) : string :=
  field_prefix fd ++ selected fd f.

(** The cell the encoder leaves under column [c]: the last item of the
    update that names [c], and the initial zero otherwise. *)
Definition encoded (f : FormInput) (c : string) : value :=
  if String.eqb ("ST_Slope_" ++ st_slope f) c then Int 1
  else if String.eqb ("ExerciseAngina_" ++ exercise_angina f) c then Int 1
  else if String.eqb ("RestingECG_" ++ resting_ecg f) c then Int 1
  else if String.eqb ("ChestPainType_" ++ chest_pain f) c then Int 1
  else if String.eqb ("Sex_" ++ sex f) c then Int 1
  else if String.eqb "Oldpeak" c then Float (oldpeak f)
  else if String.eqb "MaxHR" c then Int (max_hr f)
  else if String.eqb "FastingBS" c then Int (fasting_bs f)
  else if String.eqb "Cholesterol" c then Int (cholesterol f)
  else if String.eqb "RestingBP" c then Int (resting_bp f)
  else if String.eqb "Age" c then Int (age f)
  else Int 0.

(** *** Loading the assets *)

Record Disk : Type := mkDisk {
  KNN_heart_pkl : file Classifier;
  scaler_pkl : file Scaler;
  columns_pkl : file (list string)
}.

Definition assets : Type :=
  (option (object Classifier) * option (object Scaler) *
   option (object (list string)))%type.

Definition unavailable : assets := (None, None, None).

(** The body of [load_assets]: three loads in order, and the handler of
    [FileNotFoundError]; any other exception leaves the function. *)
Definition load_assets_body {C : Type} (disk : Disk) : St.io C assets :=
  fun p =>
    match
      (model <~ load "KNN_heart.pkl" (KNN_heart_pkl disk) ;;
       scaler <~ load "scaler.pkl" (scaler_pkl disk) ;;
       expected_columns <~ load "columns.pkl" (columns_pkl disk) ;;
       St.ret (Some model, Some scaler, Some expected_columns)) p
    with
    | (Return a, p') => (Return a, p')
    | (Raise (FileNotFoundError _), p') => (Return unavailable, p')
    | (Raise e, p') => (Raise e, p')
    end.

(** The pickle of the returned triple: what the three objects hold. *)
Definition pickled : Type :=
  (option Classifier * option Scaler * option (list string))%type.

Definition dumps (a : assets) : pickled :=
  let '(model, scaler, expected_columns) := a in
  (option_map val model, option_map val scaler, option_map val expected_columns).

Definition loads_item {C A : Type} (o : option A)
  : St.io C (option (object A)) :=
  match o with
  | None => St.ret None
  | Some content => x <~ St.new content ;; St.ret (Some x)
  end.

Definition loads {C : Type} (entry : pickled) : St.io C assets :=
  let '(m, s, c) := entry in
  model <~ loads_item m ;;
  scaler <~ loads_item s ;;
  expected_columns <~ loads_item c ;;
  St.ret (model, scaler, expected_columns).

Definition load_assets (disk : Disk) : St.io pickled assets :=
  St.cache_data dumps loads (load_assets_body disk).

(** Truth values: [None] and the empty list are false, an estimator object
    is true. *)
Definition truthy_object {A : Type} (o : option (object A)) : bool :=
  match o with
  | Some _ => true
  | None => false
  end.

Definition truthy_list {A : Type} (o : option (object (list A))) : bool :=
  match option_map val o with
  | Some (_ :: _) => true
  | _ => false
  end.

Definition all_assets (a : assets) : bool :=
  let '(model, scaler, expected_columns) := a in
  forallb (fun b : bool => b)
    [truthy_object model; truthy_object scaler; truthy_list expected_columns].

(** *** Scoring *)

(** [xs[i]] *)
Definition item {A : Type} (xs : list A) (i : nat) : result A :=
  match nth_error xs i with
  | Some x => Return x
  | None => Raise IndexError
  end.

Definition score (model : Classifier) (scaler : Scaler)
    (input : Pd.DataFrame) : result (Z * float) :=
  scaled_input <- transform scaler input ;;
  labels <- predict model scaled_input ;;
  prediction <- item labels 0 ;;
  probabilities <- predict_proba model scaled_input ;;
  first_row <- item probabilities 0 ;;
  probability <- item first_row 1 ;;
  Return (prediction, probability).

(** The body of the button's branch up to the two scoring results (the
    half-second pause before it changes no value). *)
Definition analyze (model : Classifier) (scaler : Scaler)
    (expected_columns : list string) (f : FormInput) : result (Z * float) :=
  input <- input_df expected_columns f ;;
  score model scaler input.

(** *** The script (titles are given without their ornament glyph) *)

Record Session : Type := mkSession {
  form : FormInput;
  analyze_risk : bool
}.

Definition missing_files_message : string :=
  "Error: Critical model files are missing.".

Definition sidebar : list St.element :=
  [St.title "Heart Risk Analyzer";
   St.write "This machine learning application provides a predictive analysis of heart disease risk based on key health metrics.";
   St.info "This is a demonstration and not a substitute for professional medical advice."].

Definition header : list St.element :=
  [St.title "Heart Disease Risk Analyzer";
   St.markdown "Enter patient data for a predictive risk assessment."].

Definition input_form : list St.element :=
  [St.subheader "Patient Vitals & Health Metrics";
   St.slider "Age"; St.selectbox "Sex"; St.selectbox "Chest Pain Type";
   St.number_input "Resting BP (mm Hg)"; St.number_input "Cholesterol (mg/dL)";
   St.selectbox "Fasting Blood Sugar > 120 mg/dL";
   St.selectbox "Resting ECG"; St.slider "Max Heart Rate";
   St.selectbox "Exercise Angina";
   St.slider "Oldpeak (ST Depression)"; St.selectbox "ST Slope"].

Definition display_results (prediction : Z) (probability : float)
  : list St.element :=
  [St.write "---"; St.subheader "Analysis Complete";
   (if Z.eqb prediction 1 then St.error "Finding: High Risk Detected"
    else St.success "Finding: Low Risk Detected");
   St.probability_markdown probability;
   St.caption "Disclaimer: This is a predictive model, not a medical diagnosis.";
   St.plotly_chart (PrimFloat.mul probability 100)].

(** The script from the check of the assets on. *)
Definition page (a : assets) (s : Session) : list St.element * St.outcome :=
  if negb (all_assets a) then ([St.error missing_files_message], St.Stopped)
  else
    match a with
    | (Some model, Some scaler, Some expected_columns) =>
        let shown :=
          (sidebar ++ header ++ input_form ++ [St.button "Analyze Risk"])%list in
        if analyze_risk s then
          match
            analyze (val model) (val scaler) (val expected_columns) (form s)
          with
          | Return (prediction, probability) =>
              ((shown ++ display_results prediction probability)%list,
               St.Completed)
          | Raise e => (shown, St.Uncaught e)
          end
        else (shown, St.Completed)
    | _ => ([], St.Completed) (* not reached: a [None] fails the check *)
    end.

Definition preamble : list St.element :=
  [St.page_config "Heart Risk Analyzer"; St.theme_css].

(** One run of the whole script. *)
Definition script (disk : Disk) (s : Session)
  : St.Process pickled ->
    (list St.element * St.outcome) * St.Process pickled :=
  fun p =>
    match load_assets disk p with
    | (Return a, p') =>
        let '(shown, out) := page a s in
        (((preamble ++ shown)%list, out), p')
    | (Raise e, p') => ((preamble, St.Uncaught e), p')
    end.

(** The calls of [load_assets] that later runs of the script make, one per
    run, each against the disk as it is then. *)
Fixpoint later_calls (disks : list Disk) (p : St.Process pickled)
  : list (result assets) * St.Process pickled :=
  match disks with
  | [] => ([], p)
  | disk :: rest =>
      let '(r, p') := load_assets disk p in
      let '(rs, p'') := later_calls rest p' in
      (r :: rs, p'')
  end.

(** *** Conditions used in the statements *)

Definition is_absent {A : Type} (f : file A) : bool :=
  match f with
  | Absent => true
  | _ => false
  end.

Definition is_stored {A : Type} (f : file A) : bool :=
  match f with
  | Stored _ => true
  | _ => false
  end.

Definition some_file_absent (disk : Disk) : Prop :=
  is_absent (KNN_heart_pkl disk) = true \/
  is_absent (scaler_pkl disk) = true \/
  is_absent (columns_pkl disk) = true.

(** The first file, in the order of the loads, that does not load is an
    absent one. *)
Definition first_failure_absent (disk : Disk) : Prop :=
  is_absent (KNN_heart_pkl disk) = true \/
  is_stored (KNN_heart_pkl disk) = true /\
  (is_absent (scaler_pkl disk) = true \/
   is_stored (scaler_pkl disk) = true /\
   is_absent (columns_pkl disk) = true).

Definition some_asset_unavailable (a : assets) : Prop :=
  let '(model, scaler, expected_columns) := a in
  model = None \/ scaler = None \/ expected_columns = None.

(** What a call handed back, with the addresses of the objects left out. *)
Definition contents (r : result assets) : result pickled :=
  match r with
  | Return a => Return (dumps a)
  | Raise e => Raise e
  end.

Definition is_form_element (e : St.element) : bool :=
  match e with
  | St.slider _ | St.number_input _ | St.selectbox _ | St.button _ => true
  | _ => false
  end.

Definition is_probability (p : float) : Prop :=
  PrimFloat.leb 0 p = true /\ PrimFloat.leb p 1 = true.

(** A row of [predict_proba]: the probabilities of label 0 and label 1. *)
Definition probability_pair (pair : list float) : Prop :=
  exists p0 p1 : float,
    pair = [p0; p1] /\ is_probability p0 /\ is_probability p1.

(** The classifier's side of the contract: whenever [predict] returns, it
    returns one label in {0,1} for every row, and whenever [predict_proba]
    returns, it returns one pair of probabilities for every row.  Nothing is
    asked of a call that raises, so an estimator may reject an input. *)
Definition classifier_interface (model : Classifier) : Prop :=
  forall x : ndarray,
    (forall labels : list Z,
        predict model x = Return labels ->
        List.length labels = List.length x /\
        Forall (fun label => label = 0 \/ label = 1) labels) /\
    (forall probabilities : ndarray,
        predict_proba model x = Return probabilities ->
        List.length probabilities = List.length x /\
        Forall probability_pair probabilities).

(** The scaler's side: whenever [transform] returns, it returns one scaled
    row for every row of the table. *)
Definition scaler_interface (scaler : Scaler) : Prop :=
  forall (df : Pd.DataFrame) (scaled : ndarray),
    transform scaler df = Return scaled ->
    List.length scaled = List.length (Pd.rows df).

Definition holds_one (cell : option value) : bool :=
  match cell with
  | Some (Int z) => Z.eqb z 1
  | _ => false
  end.

(** The columns of field [fd] (by prefix) under which the row holds 1. *)
Definition hot_columns (fd : field) (df : Pd.DataFrame) : list string :=
  filter (fun c => String.prefix (field_prefix fd) c && holds_one (Pd.cell df c))
         (Pd.columns df).

End App.

(** ** Sample artifacts

    The three pickled files are not part of the repository; these stand in
    for them where a statement is exercised on concrete data. *)

Module Samples.
Import Py Sk Joblib App.

(** Every numeric column and every indicator column of the form. *)
Definition full_columns : list string :=
  ["Age"; "RestingBP"; "Cholesterol"; "FastingBS"; "MaxHR"; "Oldpeak";
   "Sex_F"; "Sex_M";
   "ChestPainType_ASY"; "ChestPainType_ATA"; "ChestPainType_NAP";
   "ChestPainType_TA";
   "RestingECG_LVH"; "RestingECG_Normal"; "RestingECG_ST";
   "ExerciseAngina_N"; "ExerciseAngina_Y";
   "ST_Slope_Down"; "ST_Slope_Flat"; "ST_Slope_Up"].

(** A schema in which the first category of every field has no column. *)
Definition reduced_columns : list string :=
  ["Age"; "RestingBP"; "Cholesterol"; "FastingBS"; "MaxHR"; "Oldpeak";
   "Sex_M";
   "ChestPainType_ATA"; "ChestPainType_NAP"; "ChestPainType_TA";
   "RestingECG_Normal"; "RestingECG_ST";
   "ExerciseAngina_Y";
   "ST_Slope_Flat"; "ST_Slope_Up"].

Definition to_float (v : value) : float :=
  match v with
  | Int z => PrimFloat.of_uint63 (Uint63.of_Z z)
  | Float x => x
  end.

(** A scaler with mean 0 and scale 1. *)
Definition unit_scaler : Scaler :=
  {| transform := fun df => Return (map (map to_float) (Pd.rows df)) |}.

(** A classifier that looks at the sixth feature only. *)
Definition stump_test (row : list float) : bool :=
  PrimFloat.leb 1.5 (nth 5 row 0%float).

Definition stump : Classifier :=
  {| predict := fun x =>
       Return (map (fun row => if stump_test row then 1 else 0) x);
     predict_proba := fun x =>
       Return (map (fun row => if stump_test row then [0.25; 0.75]%float
                               else [0.75; 0.25]%float) x) |}.

(** Estimators that check the number of features before they answer, as
    fitted estimators do: twenty, the width of the full schema. *)
Definition twenty_wide {A : Type} (x : list (list A)) : bool :=
  forallb (fun row => Nat.eqb (List.length row) 20) x.

Definition strict_scaler : Scaler :=
  {| transform := fun df =>
       if twenty_wide (Pd.rows df) then transform unit_scaler df
       else Raise (OtherError "X has a different number of features") |}.

Definition strict_stump : Classifier :=
  {| predict := fun x =>
       if twenty_wide x then predict stump x
       else Raise (OtherError "X has a different number of features");
     predict_proba := fun x =>
       if twenty_wide x then predict_proba stump x
       else Raise (OtherError "X has a different number of features") |}.

Definition complete_disk : Disk :=
  {| KNN_heart_pkl := Stored stump;
     scaler_pkl := Stored unit_scaler;
     columns_pkl := Stored full_columns |}.

Definition empty_disk : Disk :=
  {| KNN_heart_pkl := Absent; scaler_pkl := Absent; columns_pkl := Absent |}.

(** The classifier file does not unpickle and the scaler file is absent. *)
Definition damaged_disk : Disk :=
  {| KNN_heart_pkl := Corrupt "invalid load key";
     scaler_pkl := Absent;
     columns_pkl := Stored full_columns |}.

End Samples.

(** ** Further notions about the script *)

Module Cover.
Import Py Sk Joblib App.

(** Membership among keys, as [in] decides it. *)
Definition mem (k : string) (ks : list string) : bool :=
  existsb (fun k0 => String.eqb k0 k) ks.

Fixpoint distinct (ks : list string) : bool :=
  match ks with
  | [] => true
  | k :: rest => negb (mem k rest) && distinct rest
  end.

(** The six columns that receive a number of the form. *)
Definition numeric_columns : list string :=
  ["Age"; "RestingBP"; "Cholesterol"; "FastingBS"; "MaxHR"; "Oldpeak"].

Definition numeric_value (f : FormInput) (c : string) : option value :=
  if String.eqb c "Age" then Some (Int (age f))
  else if String.eqb c "RestingBP" then Some (Int (resting_bp f))
  else if String.eqb c "Cholesterol" then Some (Int (cholesterol f))
  else if String.eqb c "FastingBS" then Some (Int (fasting_bs f))
  else if String.eqb c "MaxHR" then Some (Int (max_hr f))
  else if String.eqb c "Oldpeak" then Some (Float (oldpeak f))
  else None.

Definition fields : list field :=
  [Sex; ChestPainType; RestingECG; ExerciseAngina; ST_Slope].

(** The eleven keys of the update, in the order of the display. *)
Definition written_names (f : FormInput) : list string :=
  (numeric_columns ++ map (fun fd => one_hot fd f) fields)%list.

(** One indicator column for every option of every select box. *)
Definition indicator_columns : list string :=
  flat_map (fun fd => map (fun o => field_prefix fd ++ o) (field_options fd))
           fields.

(** The three paths in the order of the loads. *)
Definition asset_paths : list string :=
  ["KNN_heart.pkl"; "scaler.pkl"; "columns.pkl"].

Definition all_stored (disk : Disk) : Prop :=
  is_stored (KNN_heart_pkl disk) = true /\
  is_stored (scaler_pkl disk) = true /\
  is_stored (columns_pkl disk) = true.

Definition is_corrupt {A : Type} (f : file A) : bool :=
  match f with
  | Corrupt _ => true
  | _ => false
  end.

(** The first file, in the order of the loads, that does not load is one
    that does not unpickle. *)
Definition first_failure_corrupt (disk : Disk) : Prop :=
  is_corrupt (KNN_heart_pkl disk) = true \/
  is_stored (KNN_heart_pkl disk) = true /\
  (is_corrupt (scaler_pkl disk) = true \/
   is_stored (scaler_pkl disk) = true /\
   is_corrupt (columns_pkl disk) = true).

(** How many of the three loads are started: every load up to and with the
    first one that fails. *)
Definition loads_started (disk : Disk) : nat :=
  if negb (is_stored (KNN_heart_pkl disk)) then 1
  else if negb (is_stored (scaler_pkl disk)) then 2
  else 3.

(** A triple with all three parts or with none. *)
Definition whole (entry : pickled) : Prop :=
  entry = (None, None, None) \/
  exists (m : Classifier) (s : Scaler) (c : list string),
    entry = (Some m, Some s, Some c).

(** What the page shows before any result. *)
Definition form_page : list St.element :=
  (sidebar ++ header ++ input_form ++ [St.button "Analyze Risk"])%list.

Definition is_finding (e : St.element) : bool :=
  match e with
  | St.error "Finding: High Risk Detected" => true
  | St.success "Finding: Low Risk Detected" => true
  | _ => false
  end.

Definition is_result_element (e : St.element) : bool :=
  match e with
  | St.probability_markdown _ | St.plotly_chart _ => true
  | _ => is_finding e
  end.

(** A second form, and estimators used to exercise the statements: a scaler
    that rejects its input, and a classifier fitted on one class, whose
    probability rows have a single entry. *)
Definition second_input : FormInput :=
  {| age := 77; sex := "F"; chest_pain := "ASY"; resting_bp := 95;
     cholesterol := 310; fasting_bs := 1; resting_ecg := "LVH";
     max_hr := 99; exercise_angina := "Y"; oldpeak := 2.5%float;
     st_slope := "Down" |}.

Definition rejecting_scaler : Scaler :=
  {| transform := fun _ => Raise (OtherError "feature names mismatch") |}.

Definition one_class : Classifier :=
  {| predict := fun x => Return (map (fun _ => 0) x);
     predict_proba := fun x => Return (map (fun _ => [1.0%float]) x) |}.

End Cover.

(** ** Dictionary and table lemmas *)

Module PyFacts.
Import Py.

Lemma get_setitem (d : dict) (k k' : string) (v : value) :
  get (setitem d k v) k' = if String.eqb k k' then Some v else get d k'.
Proof.
  induction d as [|[k0 v0] rest IH]; simpl.
  - reflexivity.
  - destruct (String.eqb_spec k0 k) as [->|Hne]; simpl.
    + destruct (String.eqb k k'); reflexivity.
    + rewrite IH.
      destruct (String.eqb_spec k0 k') as [->|Hne']; [|reflexivity].
      destruct (String.eqb_spec k k') as [E|_]; [congruence|reflexivity].
Qed.

Lemma get_fold_constant (v : value) (ks : list string) (d : dict) (k : string) :
  get (fold_left (fun acc k0 => setitem acc k0 v) ks d) k =
  if existsb (fun k0 => String.eqb k0 k) ks then Some v else get d k.
Proof.
  revert d; induction ks as [|k0 ks IH]; intros d; simpl.
  - reflexivity.
  - rewrite IH, get_setitem.
    destruct (existsb (fun k1 => String.eqb k1 k) ks);
      destruct (String.eqb k0 k); reflexivity.
Qed.

Lemma existsb_eqb_In (ks : list string) (k : string) :
  In k ks -> existsb (fun k0 => String.eqb k0 k) ks = true.
Proof.
  intros Hin. apply existsb_exists. exists k. split; [assumption|].
  apply String.eqb_refl.
Qed.

Lemma existsb_eqb_not_In (ks : list string) (k : string) :
  ~ In k ks -> existsb (fun k0 => String.eqb k0 k) ks = false.
Proof.
  intros Hnot. destruct (existsb _ ks) eqn:E; [|reflexivity].
  apply existsb_exists in E. destruct E as [k0 [Hin Heq]].
  apply String.eqb_eq in Heq. subst k0. contradiction.
Qed.

(** The comprehension binds exactly the listed keys. *)
Lemma get_comprehension (ks : list string) (v : value) (k : string) :
  get (comprehension ks v) k =
  if existsb (fun k0 => String.eqb k0 k) ks then Some v else None.
Proof. unfold comprehension. apply get_fold_constant. Qed.

(** A key that is bound stays bound under [setitem] and [update]. *)
Lemma keys_setitem (d : dict) (k k' : string) (v : value) :
  In k' (keys d) -> In k' (keys (setitem d k v)).
Proof.
  unfold keys. induction d as [|[k0 v0] rest IH]; simpl; [tauto|].
  destruct (String.eqb k0 k); simpl; intros [E|Hin]; auto.
Qed.

Lemma keys_update (other d : dict) (k : string) :
  In k (keys d) -> In k (keys (update d other)).
Proof.
  unfold update. revert d.
  induction other as [|[k0 v0] rest IH]; intros d Hin; simpl; [assumption|].
  apply IH, keys_setitem, Hin.
Qed.

Lemma keys_get (d : dict) (k : string) :
  In k (keys d) <-> get d k <> None.
Proof.
  unfold keys. induction d as [|[k0 v0] rest IH]; simpl.
  - split; [tauto | congruence].
  - destruct (String.eqb_spec k0 k) as [->|Hne].
    + split; [congruence | auto].
    + rewrite <- IH. split; [intros [E|H]; [contradiction|exact H] | auto].
Qed.

End PyFacts.

Module PdFacts.
Import Py Pd.

(** A column's position in the table of a record finds the record's value. *)
Lemma index_of_keys (d : dict) (c : string) :
  match index_of c (keys d) with
  | Some i => get d c = Some (nth i (values d) (Int 0))
  | None => get d c = None
  end.
Proof.
  induction d as [|[k v] rest IH]; simpl; [reflexivity|].
  destruct (String.eqb k c); [reflexivity|].
  change (map fst rest) with (keys rest).
  change (map snd rest) with (values rest).
  destruct (index_of c (keys rest)); exact IH.
Qed.

(** Selecting labels that the record binds gives their values, in the order
    of the labels. *)
Lemma getitem_of_record (d : dict) (g : string -> value) (wanted : list string) :
  (forall c, In c wanted -> get d c = Some (g c)) ->
  getitem (of_record d) wanted =
  Return {| columns := wanted; rows := [map g wanted] |}.
Proof.
  intros Hget.
  assert (Hidx : exists idx,
             get_indexer (keys d) wanted = Return idx /\
             take (values d) idx = map g wanted).
  { induction wanted as [|c rest IH]; simpl.
    - exists []. split; reflexivity.
    - destruct IH as [idx [Hidx Htake]].
      { intros c' Hin. apply Hget. right. exact Hin. }
      pose proof (index_of_keys d c) as Hc.
      rewrite (Hget c (or_introl eq_refl)) in Hc.
      destruct (index_of c (keys d)) as [i|]; [|discriminate].
      rewrite Hidx. simpl. exists (i :: idx). split; [reflexivity|].
      simpl. rewrite Htake. f_equal. congruence. }
  destruct Hidx as [idx [Hidx Htake]].
  unfold getitem, of_record. simpl. rewrite Hidx. simpl. rewrite Htake.
  reflexivity.
Qed.

(** A label that the record does not bind makes the selection raise. *)
Lemma getitem_missing (d : dict) (wanted : list string) (c : string) :
  In c wanted -> get d c = None ->
  exists c', getitem (of_record d) wanted = Raise (KeyError c').
Proof.
  intros Hin Hnone. unfold getitem, of_record. simpl.
  induction wanted as [|c0 rest IH]; [contradiction|]. simpl.
  pose proof (index_of_keys d c0) as Hc0.
  destruct (index_of c0 (keys d)) as [i|] eqn:E.
  - destruct Hin as [->|Hin]; [congruence|].
    destruct (IH Hin) as [c' Hc'].
    destruct (get_indexer (keys d) rest); simpl in *; [discriminate|].
    exists c'. exact Hc'.
  - exists c0. reflexivity.
Qed.

(** The selection does raise when it is asked for a label the table lacks. *)
Example getitem_unknown_label :
  getitem (of_record [("Age", Int 40); ("Sex_M", Int 1)])
          ["Age"; "Sex_F"; "Sex_M"] =
  Raise (KeyError "Sex_F").
Proof. reflexivity. Qed.

(** Reading a cell of a one-row table laid out along its own labels. *)
Lemma cell_map (g : string -> value) (cols : list string) (c : string) :
  In c cols ->
  cell {| columns := cols; rows := [map g cols] |} c = Some (g c).
Proof.
  unfold cell. simpl. induction cols as [|c0 rest IH]; simpl; [tauto|].
  intros Hin. destruct (String.eqb_spec c0 c) as [->|Hne]; [reflexivity|].
  destruct Hin as [E|Hin]; [contradiction|].
  specialize (IH Hin). destruct (index_of c rest); [exact IH|discriminate].
Qed.

Lemma cell_absent (row : list value) (cols : list string) (c : string) :
  ~ In c cols -> cell {| columns := cols; rows := [row] |} c = None.
Proof.
  unfold cell. simpl. intros Hnot.
  assert (H : index_of c cols = None).
  { induction cols as [|c0 rest IH]; simpl; [reflexivity|].
    destruct (String.eqb_spec c0 c) as [->|Hne].
    - exfalso. apply Hnot. left. reflexivity.
    - rewrite IH; [reflexivity|]. intros Hin. apply Hnot. right. exact Hin. }
  rewrite H. reflexivity.
Qed.

End PdFacts.

(** ** The encoder *)

Module AppFacts.
Import Py Pd App PyFacts PdFacts.

(** The dictionary display of the update has eleven distinct keys, whatever
    the selections are: the fixed prefixes keep them apart. *)
Lemma update_items (f : FormInput) :
  display
    [("Age", Int (age f)); ("RestingBP", Int (resting_bp f));
     ("Cholesterol", Int (cholesterol f)); ("FastingBS", Int (fasting_bs f));
     ("MaxHR", Int (max_hr f)); ("Oldpeak", Float (oldpeak f));
     ("Sex_" ++ sex f, Int 1); ("ChestPainType_" ++ chest_pain f, Int 1);
     ("RestingECG_" ++ resting_ecg f, Int 1);
     ("ExerciseAngina_" ++ exercise_angina f, Int 1);
     ("ST_Slope_" ++ st_slope f, Int 1)] =
    [("Age", Int (age f)); ("RestingBP", Int (resting_bp f));
     ("Cholesterol", Int (cholesterol f)); ("FastingBS", Int (fasting_bs f));
     ("MaxHR", Int (max_hr f)); ("Oldpeak", Float (oldpeak f));
     ("Sex_" ++ sex f, Int 1); ("ChestPainType_" ++ chest_pain f, Int 1);
     ("RestingECG_" ++ resting_ecg f, Int 1);
     ("ExerciseAngina_" ++ exercise_angina f, Int 1);
     ("ST_Slope_" ++ st_slope f, Int 1)].
Proof. reflexivity. Qed.

(** Every expected column is bound in the raw record, to the cell the
    encoder leaves there. *)
Lemma get_raw_input (cols : list string) (f : FormInput) (c : string) :
  In c cols -> get (raw_input cols f) c = Some (encoded f c).
Proof.
  intros Hin. unfold raw_input. rewrite update_items.
  unfold update. cbn [fold_left fst snd].
  rewrite !get_setitem, get_comprehension, (existsb_eqb_In _ _ Hin).
  unfold encoded.
  repeat match goal with
         | |- context [String.eqb ?a c] => destruct (String.eqb a c)
         end; reflexivity.
Qed.

Lemma input_df_eq (cols : list string) (f : FormInput) :
  input_df cols f =
  Return {| columns := cols; rows := [map (encoded f) cols] |}.
Proof.
  unfold input_df. apply getitem_of_record.
  intros c Hin. apply get_raw_input, Hin.
Qed.

Lemma prefix_split (p c : string) :
  String.prefix p c = true -> exists rest, c = p ++ rest.
Proof.
  revert c; induction p as [|a p IH]; intros c H.
  - exists c. reflexivity.
  - destruct c as [|b c]; simpl in H; [discriminate|].
    destruct (Ascii.ascii_dec a b) as [->|Hne]; [|discriminate].
    destruct (IH c H) as [rest ->]. exists rest. reflexivity.
Qed.

Lemma prefix_append (p rest : string) : String.prefix p (p ++ rest) = true.
Proof.
  induction p as [|a p IH]; simpl.
  - destruct rest; reflexivity.
  - destruct (Ascii.ascii_dec a a); [exact IH|contradiction].
Qed.

(** The selected column of a field holds 1. *)
Lemma encoded_one_hot (fd : field) (f : FormInput) :
  encoded f (one_hot fd f) = Int 1.
Proof.
  destruct fd; unfold encoded, one_hot; cbn; rewrite String.eqb_refl;
    reflexivity.
Qed.

(** Every other column that carries the prefix of the field holds 0: no
    item of the update names it. *)
Lemma encoded_sibling (fd : field) (f : FormInput) (c : string) :
  String.prefix (field_prefix fd) c = true ->
  c <> one_hot fd f ->
  encoded f c = Int 0.
Proof.
  intros Hp Hne. apply prefix_split in Hp. destruct Hp as [rest ->].
  unfold one_hot in Hne.
  destruct fd; unfold encoded; cbn in *;
    match goal with
    | |- context [String.eqb ?a rest] =>
        destruct (String.eqb_spec a rest) as [E|_];
          [exfalso; apply Hne; rewrite E; reflexivity | reflexivity]
    end.
Qed.

(** A record whose fields agree one by one is the same record. *)
Lemma form_input_ext (f1 f2 : FormInput) :
  age f1 = age f2 -> sex f1 = sex f2 -> chest_pain f1 = chest_pain f2 ->
  resting_bp f1 = resting_bp f2 -> cholesterol f1 = cholesterol f2 ->
  fasting_bs f1 = fasting_bs f2 -> resting_ecg f1 = resting_ecg f2 ->
  max_hr f1 = max_hr f2 -> exercise_angina f1 = exercise_angina f2 ->
  oldpeak f1 = oldpeak f2 -> st_slope f1 = st_slope f2 ->
  f1 = f2.
Proof.
  destruct f1, f2; simpl; intros; subst; reflexivity.
Qed.

(** A valid form selects, in every field, one of the options of its box. *)
Lemma valid_selected (f : FormInput) (fd : field) :
  valid_input f -> In (selected fd f) (field_options fd).
Proof.
  unfold valid_input. intros H. destruct fd; simpl; tauto.
Qed.

Lemma valid_default_input : valid_input default_input.
Proof.
  unfold valid_input, default_input; simpl.
  repeat split; try lia; try reflexivity; auto 6.
Qed.

Lemma filter_eqb_NoDup (x : string) (l : list string) :
  NoDup l -> In x l -> filter (String.eqb x) l = [x].
Proof.
  induction 1 as [|y l Hy Hl IH]; simpl; [tauto|].
  intros [->|Hin].
  - rewrite String.eqb_refl. f_equal.
    rewrite <- (filter_ext_in (fun _ => false)).
    + clear. induction l; simpl; auto.
    + intros z Hz. symmetry. apply String.eqb_neq. intros ->. contradiction.
  - destruct (String.eqb_spec x y) as [->|_]; [contradiction|]. auto.
Qed.

End AppFacts.

(** ** Properties of the encoder *)

Import Py Pd Sk Joblib App Samples PyFacts PdFacts AppFacts.

(** C1. For every valid combination of the eleven form inputs, the one-row
    table handed to the scaler has the expected columns as its columns, in
    the same order, none extra and none missing, with one cell under each. *)
Theorem encoded_columns_exact (expected_columns : list string) (f : FormInput) :
  valid_input f ->
  exists (df : DataFrame) (row : list value),
    input_df expected_columns f = Return df /\
    columns df = expected_columns /\
    rows df = [row] /\
    List.length row = List.length expected_columns.
Proof.
  intros _. rewrite input_df_eq.
  eexists; eexists; repeat split. simpl. apply length_map.
Qed.

Lemma encoded_columns_exact_witness :
  valid_input default_input /\
  exists (df : DataFrame) (row : list value),
    input_df reduced_columns default_input = Return df /\
    columns df = reduced_columns /\
    rows df = [row] /\
    List.length row = List.length reduced_columns.
Proof.
  split; [exact valid_default_input|].
  apply (encoded_columns_exact reduced_columns default_input).
  exact valid_default_input.
Defined.

(** C2. For every valid selection whose five constructed column names all
    occur in the expected columns, the row holds 1 under the selected column
    of each categorical field and 0 under every other column of that field;
    when the expected columns are pairwise distinct, the selected column is
    the only column of the field that holds 1. *)
Theorem one_hot_exactly_one (expected_columns : list string) (f : FormInput) :
  valid_input f ->
  (forall fd : field, In (one_hot fd f) expected_columns) ->
  exists df : DataFrame,
    input_df expected_columns f = Return df /\
    forall fd : field,
      cell df (one_hot fd f) = Some (Int 1) /\
      (forall c : string,
          In c expected_columns ->
          String.prefix (field_prefix fd) c = true ->
          c <> one_hot fd f ->
          cell df c = Some (Int 0)) /\
      (NoDup expected_columns -> hot_columns fd df = [one_hot fd f]).
Proof.
  intros _ Hin. rewrite input_df_eq. eexists; split; [reflexivity|].
  intros fd. split; [|split].
  - rewrite cell_map by apply Hin. f_equal. apply encoded_one_hot.
  - intros c Hc Hp Hne. rewrite cell_map by exact Hc.
    f_equal. apply (encoded_sibling fd); assumption.
  - intros Hnd. unfold hot_columns. cbn [columns].
    rewrite <- (filter_eqb_NoDup _ _ Hnd (Hin fd)).
    apply filter_ext_in. intros c Hc. rewrite cell_map by exact Hc.
    destruct (String.eqb_spec (one_hot fd f) c) as [<-|Hne].
    + unfold one_hot at 1. rewrite prefix_append, encoded_one_hot.
      reflexivity.
    + destruct (String.prefix (field_prefix fd) c) eqn:Hp; [|reflexivity].
      rewrite (encoded_sibling fd f c Hp) by congruence. reflexivity.
Qed.

Lemma one_hot_exactly_one_witness :
  valid_input default_input /\
  (forall fd : field, In (one_hot fd default_input) full_columns) /\
  exists df : DataFrame,
    input_df full_columns default_input = Return df /\
    forall fd : field,
      cell df (one_hot fd default_input) = Some (Int 1) /\
      (forall c : string,
          In c full_columns ->
          String.prefix (field_prefix fd) c = true ->
          c <> one_hot fd default_input ->
          cell df c = Some (Int 0)) /\
      (NoDup full_columns -> hot_columns fd df = [one_hot fd default_input]).
Proof.
  assert (Hin : forall fd : field, In (one_hot fd default_input) full_columns).
  { intros fd. destruct fd; vm_compute; tauto. }
  split; [exact valid_default_input|]. split; [exact Hin|].
  apply (one_hot_exactly_one full_columns default_input).
  - exact valid_default_input.
  - exact Hin.
Defined.

(** C3. For age 40, sex M, chest pain ATA, resting BP 120, cholesterol 200,
    fasting BS 0, resting ECG Normal, max HR 150, exercise angina N,
    oldpeak 1.0 and ST slope Up (the state of an untouched form), the row
    holds Age=40, RestingBP=120, Cholesterol=200, FastingBS=0, MaxHR=150,
    Oldpeak=1.0, Sex_M=1, ChestPainType_ATA=1, RestingECG_Normal=1,
    ExerciseAngina_N=1 and ST_Slope_Up=1 under those of the eleven names
    that are expected columns, and 0 under every other expected column. *)
Theorem scenario_row (expected_columns : list string) :
  exists df : DataFrame,
    input_df expected_columns
      {| age := 40; sex := "M"; chest_pain := "ATA"; resting_bp := 120;
         cholesterol := 200; fasting_bs := 0; resting_ecg := "Normal";
         max_hr := 150; exercise_angina := "N"; oldpeak := 1.0%float;
         st_slope := "Up" |} = Return df /\
    columns df = expected_columns /\
    (In "Age" expected_columns -> cell df "Age" = Some (Int 40)) /\
    (In "RestingBP" expected_columns ->
     cell df "RestingBP" = Some (Int 120)) /\
    (In "Cholesterol" expected_columns ->
     cell df "Cholesterol" = Some (Int 200)) /\
    (In "FastingBS" expected_columns -> cell df "FastingBS" = Some (Int 0)) /\
    (In "MaxHR" expected_columns -> cell df "MaxHR" = Some (Int 150)) /\
    (In "Oldpeak" expected_columns ->
     cell df "Oldpeak" = Some (Float 1.0)) /\
    (In "Sex_M" expected_columns -> cell df "Sex_M" = Some (Int 1)) /\
    (In "ChestPainType_ATA" expected_columns ->
     cell df "ChestPainType_ATA" = Some (Int 1)) /\
    (In "RestingECG_Normal" expected_columns ->
     cell df "RestingECG_Normal" = Some (Int 1)) /\
    (In "ExerciseAngina_N" expected_columns ->
     cell df "ExerciseAngina_N" = Some (Int 1)) /\
    (In "ST_Slope_Up" expected_columns ->
     cell df "ST_Slope_Up" = Some (Int 1)) /\
    (forall c : string,
        In c expected_columns ->
        ~ In c ["Age"; "RestingBP"; "Cholesterol"; "FastingBS"; "MaxHR";
                "Oldpeak"; "Sex_M"; "ChestPainType_ATA"; "RestingECG_Normal";
                "ExerciseAngina_N"; "ST_Slope_Up"] ->
        cell df c = Some (Int 0)).
Proof.
  rewrite input_df_eq. eexists; split; [reflexivity|].
  repeat (split; [first [reflexivity
                        | intros Hc; rewrite cell_map by exact Hc;
                          reflexivity]|]).
  intros c Hc Hnot. rewrite cell_map by exact Hc. f_equal.
  unfold encoded; cbn [age sex chest_pain resting_bp cholesterol
    fasting_bs resting_ecg max_hr exercise_angina oldpeak st_slope].
  repeat match goal with
         | |- context [String.eqb ?a c] =>
             destruct (String.eqb_spec a c) as [E|_];
               [exfalso; apply Hnot; rewrite <- E; vm_compute; tauto|]
         end.
  reflexivity.
Qed.

(** The same scenario run through the encoder on a schema that has every
    column of the form. *)
Example default_form_on_full_schema :
  input_df full_columns default_input =
  Return {| columns := full_columns;
            rows := [[Int 40; Int 120; Int 200; Int 0; Int 150; Float 1.0;
                      Int 0; Int 1;
                      Int 0; Int 1; Int 0; Int 0;
                      Int 0; Int 1; Int 0;
                      Int 1; Int 0;
                      Int 0; Int 0; Int 1]] |}.
Proof. vm_compute. reflexivity. Qed.

(** On a schema without the columns of the first categories, the indicator
    of exercise angina N is gone and its sibling holds 0. *)
Example default_form_on_reduced_schema :
  input_df reduced_columns default_input =
  Return {| columns := reduced_columns;
            rows := [[Int 40; Int 120; Int 200; Int 0; Int 150; Float 1.0;
                      Int 1;
                      Int 1; Int 0; Int 0;
                      Int 1; Int 0;
                      Int 0;
                      Int 0; Int 1]] |}.
Proof. vm_compute. reflexivity. Qed.

(** The raw record keeps an indicator that no expected column names, as a
    key after the expected ones. *)
Lemma raw_input_one_hot (expected_columns : list string) (f : FormInput)
    (fd : field) :
  get (raw_input expected_columns f) (one_hot fd f) = Some (Int 1).
Proof.
  unfold raw_input. rewrite update_items.
  unfold update. cbn [fold_left fst snd]. rewrite !get_setitem.
  destruct fd; unfold one_hot; cbn; rewrite String.eqb_refl; reflexivity.
Qed.

(** C6. When the column name built from a valid selection is not an expected
    column, encoding still returns a table: the indicator written to the raw
    record is dropped by the projection, the table has no such column, and
    every column of that field holds 0. *)
Theorem missing_indicator_silent (expected_columns : list string)
    (f : FormInput) (fd : field) :
  valid_input f ->
  ~ In (one_hot fd f) expected_columns ->
  exists df : DataFrame,
    input_df expected_columns f = Return df /\
    get (raw_input expected_columns f) (one_hot fd f) = Some (Int 1) /\
    cell df (one_hot fd f) = None /\
    (forall c : string,
        In c expected_columns ->
        String.prefix (field_prefix fd) c = true ->
        cell df c = Some (Int 0)) /\
    hot_columns fd df = [].
Proof.
  intros _ Hnot. rewrite input_df_eq. eexists; split; [reflexivity|].
  assert (Hzero : forall c, In c expected_columns ->
                            String.prefix (field_prefix fd) c = true ->
                            encoded f c = Int 0).
  { intros c Hc Hp. apply (encoded_sibling fd); [exact Hp|].
    intros ->. contradiction. }
  split; [apply raw_input_one_hot|].
  split; [apply cell_absent, Hnot|].
  split.
  - intros c Hc Hp. rewrite cell_map by exact Hc. f_equal. auto.
  - unfold hot_columns. cbn [columns].
    rewrite <- (filter_ext_in (fun _ => false)).
    + clear. induction expected_columns; simpl; auto.
    + intros c Hc. rewrite cell_map by exact Hc.
      destruct (String.prefix (field_prefix fd) c) eqn:Hp; [|reflexivity].
      rewrite (Hzero c Hc Hp). reflexivity.
Qed.

Lemma missing_indicator_silent_witness :
  valid_input default_input /\
  ~ In (one_hot ExerciseAngina default_input) reduced_columns /\
  exists df : DataFrame,
    input_df reduced_columns default_input = Return df /\
    get (raw_input reduced_columns default_input)
        (one_hot ExerciseAngina default_input) = Some (Int 1) /\
    cell df (one_hot ExerciseAngina default_input) = None /\
    (forall c : string,
        In c reduced_columns ->
        String.prefix (field_prefix ExerciseAngina) c = true ->
        cell df c = Some (Int 0)) /\
    hot_columns ExerciseAngina df = [].
Proof.
  assert (Hnot : ~ In (one_hot ExerciseAngina default_input) reduced_columns).
  { vm_compute. intros H.
    repeat (destruct H as [H|H]; [discriminate H|]). exact H. }
  split; [exact valid_default_input|]. split; [exact Hnot|].
  apply (missing_indicator_silent reduced_columns default_input ExerciseAngina).
  - exact valid_default_input.
  - exact Hnot.
Defined.

(** C10. Whatever the eleven values are, also when a constructed column name
    is no expected column, the projection onto the expected columns does not
    raise: the comprehension binds every expected column to 0, the update
    removes no key, and so every label the projection asks for is found. *)
Theorem projection_never_fails (expected_columns : list string)
    (f : FormInput) :
  (forall c : string,
      In c expected_columns ->
      get (comprehension expected_columns (Int 0)) c = Some (Int 0)) /\
  (forall c : string,
      In c expected_columns -> In c (keys (raw_input expected_columns f))) /\
  (exists df : DataFrame, input_df expected_columns f = Return df) /\
  (forall e : exn, input_df expected_columns f <> Raise e).
Proof.
  assert (Hinit : forall c, In c expected_columns ->
            get (comprehension expected_columns (Int 0)) c = Some (Int 0)).
  { intros c Hc. rewrite get_comprehension, (existsb_eqb_In _ _ Hc).
    reflexivity. }
  assert (Hkeys : forall c, In c expected_columns ->
            In c (keys (raw_input expected_columns f))).
  { intros c Hc. unfold raw_input. apply keys_update, keys_get.
    rewrite (Hinit c Hc). discriminate. }
  split; [exact Hinit|]. split; [exact Hkeys|].
  assert (Hget : forall c, In c expected_columns ->
            get (raw_input expected_columns f) c =
            Some (match get (raw_input expected_columns f) c with
                  | Some v => v
                  | None => Int 0
                  end)).
  { intros c Hc. apply Hkeys, keys_get in Hc.
    destruct (get (raw_input expected_columns f) c); congruence. }
  unfold input_df.
  rewrite (getitem_of_record _ _ _ Hget).
  split; [eexists; reflexivity | discriminate].
Qed.

(** ** Properties of the asset loader *)

(** What the body of the loader returns, by the state of the three files. *)
Lemma load_assets_body_result {C : Type} (disk : Disk) (p : St.Process C) :
  fst (load_assets_body disk p) =
  match read "KNN_heart.pkl" (KNN_heart_pkl disk) with
  | Raise (FileNotFoundError _) => Return unavailable
  | Raise e => Raise e
  | Return model =>
      match read "scaler.pkl" (scaler_pkl disk) with
      | Raise (FileNotFoundError _) => Return unavailable
      | Raise e => Raise e
      | Return scaler =>
          match read "columns.pkl" (columns_pkl disk) with
          | Raise (FileNotFoundError _) => Return unavailable
          | Raise e => Raise e
          | Return expected_columns =>
              Return
                (Some {| addr := St.allocated p; val := model |},
                 Some {| addr := S (St.allocated p); val := scaler |},
                 Some {| addr := S (S (St.allocated p));
                         val := expected_columns |})
          end
      end
  end.
Proof.
  destruct disk as [[|m|e1] [|s|e2] [|c|e3]]; reflexivity.
Qed.

Lemma cache_data_miss {A P : Type} (dumps : A -> P) (loads : P -> St.io P A)
    (body : St.io P A) (p : St.Process P) :
  St.cache p = None -> fst (St.cache_data dumps loads body p) = fst (body p).
Proof.
  intros Hc. unfold St.cache_data. rewrite Hc.
  destruct (body p) as [[a|e] p']; reflexivity.
Qed.

Lemma cache_data_hit {A P : Type} (dumps : A -> P) (loads : P -> St.io P A)
    (body : St.io P A) (p : St.Process P) (entry : P) :
  St.cache p = Some entry -> St.cache_data dumps loads body p = loads entry p.
Proof. intros Hc. unfold St.cache_data. rewrite Hc. reflexivity. Qed.

(** Unpickling an entry returns objects that hold what the entry holds; it
    builds objects and touches neither the cache nor the disk. *)
Lemma loads_returns {C : Type} (entry : pickled) (p : St.Process C) :
  exists (a : assets) (p' : St.Process C),
    loads entry p = (Return a, p') /\
    dumps a = entry /\
    St.cache p' = St.cache p /\
    St.reads p' = St.reads p.
Proof.
  destruct entry as [[[m|] [s|]] [c|]];
    eexists; eexists; (split; [reflexivity|]); repeat split.
Qed.

(** A call that returns leaves the pickle of its value in the cache. *)
Lemma load_assets_stores (disk : Disk) (p p' : St.Process pickled)
    (a : assets) :
  load_assets disk p = (Return a, p') -> St.cache p' = Some (dumps a).
Proof.
  unfold load_assets, St.cache_data.
  destruct (St.cache p) as [entry|] eqn:Hc.
  - destruct (loads_returns entry p) as [a' [p'' [Hl [Hd [Hcache _]]]]].
    rewrite Hl. intros H. injection H as <- <-.
    rewrite Hcache, Hc, Hd. reflexivity.
  - destruct (load_assets_body disk p) as [[a1|e] p1]; intros H;
      [|discriminate].
    injection H as <- <-. reflexivity.
Qed.

(** With an entry in the cache, the calls of later runs hand back its
    contents and leave the cache and the record of opened paths alone. *)
Lemma later_calls_hit (entry : pickled) (disks : list Disk)
    (p : St.Process pickled) :
  St.cache p = Some entry ->
  map contents (fst (later_calls disks p)) =
    repeat (Return entry) (List.length disks) /\
  St.cache (snd (later_calls disks p)) = Some entry /\
  St.reads (snd (later_calls disks p)) = St.reads p.
Proof.
  revert p. induction disks as [|disk rest IH]; intros p Hc; simpl.
  - repeat split. exact Hc.
  - unfold load_assets at 1 2 3. rewrite (cache_data_hit _ _ _ _ _ Hc).
    destruct (loads_returns entry p) as [a [p' [Hl [Hd [Hcache Hreads]]]]].
    rewrite Hl.
    assert (Hc' : St.cache p' = Some entry) by (rewrite Hcache; exact Hc).
    destruct (IH p' Hc') as [Hrs [Hcs Hrd]].
    destruct (later_calls rest p') as [rs p'']. simpl in *.
    rewrite Hrs, Hd, Hrd, Hreads. repeat split. exact Hcs.
Qed.

(** The page depends on what the assets hold, not on where they live. *)
Lemma page_contents (a1 a2 : assets) (s : Session) :
  dumps a1 = dumps a2 -> page a1 s = page a2 s.
Proof.
  destruct a1 as [[[[i1 m1]|] [[j1 s1]|]] [[k1 c1]|]];
    destruct a2 as [[[[i2 m2]|] [[j2 s2]|]] [[k2 c2]|]];
    simpl; intros H; try discriminate H; try reflexivity.
  injection H as -> -> ->. reflexivity.
Qed.

(** C4, as stated, fails: with the scaler file absent and a classifier file
    that does not unpickle, the first load raises an exception that is not
    [FileNotFoundError], the handler does not apply, and the exception
    leaves the loader. *)
Lemma absent_file_exception_escapes :
  some_file_absent damaged_disk /\
  fst (load_assets damaged_disk St.fresh) = Raise (OtherError "invalid load key") /\
  ~ (forall (disk : Disk) (p : St.Process pickled),
        St.cache p = None ->
        some_file_absent disk ->
        fst (load_assets disk p) = Return unavailable).
Proof.
  assert (Habs : some_file_absent damaged_disk).
  { right. left. reflexivity. }
  split; [exact Habs|]. split; [reflexivity|].
  intros H. specialize (H damaged_disk St.fresh eq_refl Habs).
  discriminate H.
Qed.

(** C4, amended. When the loader runs (nothing is cached) and the first of
    the three files, in the order classifier, scaler, columns, that does not
    load is an absent one, the loader returns (None, None, None) and no
    exception leaves it. *)
Theorem load_assets_sentinel (disk : Disk) (p : St.Process pickled) :
  St.cache p = None ->
  first_failure_absent disk ->
  fst (load_assets disk p) = Return unavailable /\
  unavailable = (None, None, None) /\
  forall e : exn, fst (load_assets disk p) <> Raise e.
Proof.
  intros Hc Hfirst.
  assert (H : fst (load_assets disk p) = Return unavailable).
  { unfold load_assets. rewrite (cache_data_miss _ _ _ _ Hc).
    rewrite load_assets_body_result.
    destruct disk as [f1 f2 f3]; unfold first_failure_absent in Hfirst;
      simpl in *.
    destruct f1 as [|m|e1]; simpl in *; [reflexivity| |].
    - destruct Hfirst as [Hf|[_ Hf]]; [discriminate|].
      destruct f2 as [|s|e2]; simpl in *; [reflexivity| |].
      + destruct Hf as [Hf|[_ Hf]]; [discriminate|].
        destruct f3 as [|c|e3]; simpl in *; [reflexivity| |]; discriminate.
      + destruct Hf as [Hf|[Hf _]]; discriminate.
    - destruct Hfirst as [Hf|[Hf _]]; discriminate. }
  split; [exact H|]. split; [reflexivity|].
  intros e. rewrite H. discriminate.
Qed.

Lemma load_assets_sentinel_witness :
  St.cache (@St.fresh pickled) = None /\
  first_failure_absent
    {| KNN_heart_pkl := Stored stump; scaler_pkl := Absent;
       columns_pkl := Corrupt "truncated" |} /\
  fst (load_assets
         {| KNN_heart_pkl := Stored stump; scaler_pkl := Absent;
            columns_pkl := Corrupt "truncated" |} St.fresh) =
  Return unavailable.
Proof.
  assert (Hfirst : first_failure_absent
            {| KNN_heart_pkl := Stored stump; scaler_pkl := Absent;
               columns_pkl := Corrupt "truncated" |}).
  { right. split; [reflexivity|]. left. reflexivity. }
  split; [reflexivity|]. split; [exact Hfirst|].
  exact (proj1 (load_assets_sentinel _ St.fresh eq_refl Hfirst)).
Defined.

(** C5. When any one of the three loaded assets is [None], the run shows the
    page configuration and theme, then the error message, and stops there:
    no sidebar, no form widget and no button is rendered and nothing is
    scored. *)
Theorem unavailable_assets_halt (disk : Disk) (s : Session)
    (p p' : St.Process pickled) (a : assets) :
  load_assets disk p = (Return a, p') ->
  some_asset_unavailable a ->
  page a s = ([St.error missing_files_message], St.Stopped) /\
  script disk s p =
    ([St.page_config "Heart Risk Analyzer"; St.theme_css;
      St.error "Error: Critical model files are missing."], St.Stopped, p') /\
  existsb is_form_element (fst (fst (script disk s p))) = false.
Proof.
  intros Hload Hnone.
  assert (Hpage : page a s = ([St.error missing_files_message], St.Stopped)).
  { destruct a as [[model scaler] expected_columns].
    unfold some_asset_unavailable in Hnone. unfold page, all_assets.
    destruct Hnone as [-> | [-> | ->]]; simpl.
    - reflexivity.
    - destruct model; reflexivity.
    - destruct model; destruct scaler; reflexivity. }
  assert (Hscript : script disk s p =
            ([St.page_config "Heart Risk Analyzer"; St.theme_css;
              St.error "Error: Critical model files are missing."],
             St.Stopped, p')).
  { unfold script. rewrite Hload, Hpage. reflexivity. }
  split; [exact Hpage|]. split; [exact Hscript|].
  rewrite Hscript. reflexivity.
Qed.

Lemma unavailable_assets_halt_witness :
  load_assets empty_disk St.fresh =
    (Return unavailable,
     {| St.cache := Some (None, None, None); St.reads := ["KNN_heart.pkl"];
        St.allocated := 0 |}) /\
  some_asset_unavailable unavailable /\
  script empty_disk {| form := default_input; analyze_risk := true |} St.fresh =
    ([St.page_config "Heart Risk Analyzer"; St.theme_css;
      St.error "Error: Critical model files are missing."], St.Stopped,
     {| St.cache := Some (None, None, None); St.reads := ["KNN_heart.pkl"];
        St.allocated := 0 |}).
Proof.
  assert (Hnone : some_asset_unavailable unavailable).
  { left. reflexivity. }
  split; [reflexivity|]. split; [exact Hnone|].
  exact (proj1 (proj2 (unavailable_assets_halt empty_disk
                         {| form := default_input; analyze_risk := true |}
                         St.fresh _ unavailable eq_refl Hnone))).
Defined.

(** C9, as stated, fails: the first call hands back the three objects that
    [joblib.load] built, and the next call hands back three objects built by
    unpickling the cache entry; they hold the same as the first three and
    are not the same objects. *)
Lemma later_call_builds_new_objects :
  load_assets complete_disk St.fresh =
    (Return (Some {| addr := 0; val := stump |},
             Some {| addr := 1; val := unit_scaler |},
             Some {| addr := 2; val := full_columns |}),
     {| St.cache := Some (Some stump, Some unit_scaler, Some full_columns);
        St.reads := ["KNN_heart.pkl"; "scaler.pkl"; "columns.pkl"];
        St.allocated := 3 |}) /\
  load_assets complete_disk
    {| St.cache := Some (Some stump, Some unit_scaler, Some full_columns);
       St.reads := ["KNN_heart.pkl"; "scaler.pkl"; "columns.pkl"];
       St.allocated := 3 |} =
    (Return (Some {| addr := 3; val := stump |},
             Some {| addr := 4; val := unit_scaler |},
             Some {| addr := 5; val := full_columns |}),
     {| St.cache := Some (Some stump, Some unit_scaler, Some full_columns);
        St.reads := ["KNN_heart.pkl"; "scaler.pkl"; "columns.pkl"];
        St.allocated := 6 |}) /\
  ~ (forall (disk0 disk : Disk) (p0 p1 p2 : St.Process pickled)
            (a : assets) (r : result assets),
        load_assets disk0 p0 = (Return a, p1) ->
        load_assets disk p1 = (r, p2) ->
        r = Return a).
Proof.
  split; [reflexivity|]. split; [reflexivity|].
  intros H.
  specialize (H complete_disk complete_disk St.fresh _ _ _ _
                eq_refl eq_refl).
  discriminate H.
Qed.

(** C9, amended. Once a call of the loader has returned, every later call in
    the same process returns objects that hold what the objects of that call
    hold, whatever the disk holds by then, and opens no file: the cache
    entry and the record of opened paths stay as the first call left
    them. *)
Theorem cached_assets_reused (disk0 : Disk) (p0 p1 : St.Process pickled)
    (a : assets) (disks : list Disk) :
  load_assets disk0 p0 = (Return a, p1) ->
  map contents (fst (later_calls disks p1)) =
    repeat (Return (dumps a)) (List.length disks) /\
  St.cache (snd (later_calls disks p1)) = St.cache p1 /\
  St.reads (snd (later_calls disks p1)) = St.reads p1.
Proof.
  intros Hfirst.
  pose proof (load_assets_stores _ _ _ _ Hfirst) as Hc.
  destruct (later_calls_hit (dumps a) disks p1 Hc) as [Hrs [Hcs Hrd]].
  split; [exact Hrs|]. split; [|exact Hrd].
  rewrite Hcs, Hc. reflexivity.
Qed.

Lemma cached_assets_reused_witness :
  load_assets complete_disk St.fresh =
    (Return (Some {| addr := 0; val := stump |},
             Some {| addr := 1; val := unit_scaler |},
             Some {| addr := 2; val := full_columns |}),
     {| St.cache := Some (Some stump, Some unit_scaler, Some full_columns);
        St.reads := ["KNN_heart.pkl"; "scaler.pkl"; "columns.pkl"];
        St.allocated := 3 |}) /\
  map contents
    (fst (later_calls [empty_disk; damaged_disk; complete_disk]
            {| St.cache :=
                 Some (Some stump, Some unit_scaler, Some full_columns);
               St.reads := ["KNN_heart.pkl"; "scaler.pkl"; "columns.pkl"];
               St.allocated := 3 |})) =
    repeat (Return (Some stump, Some unit_scaler, Some full_columns)) 3.
Proof.
  split; [reflexivity|].
  exact (proj1 (cached_assets_reused complete_disk St.fresh _ _
                  [empty_disk; damaged_disk; complete_disk] eq_refl)).
Defined.

(** ** Properties of the scorer *)

Lemma stump_interface : classifier_interface stump.
Proof.
  intros x. unfold stump; simpl. split.
  - intros labels H. injection H as <-. split; [apply length_map|].
    induction x as [|row x IH]; simpl; constructor; [|exact IH].
    destruct (stump_test row); [right|left]; reflexivity.
  - intros probabilities H. injection H as <-. split; [apply length_map|].
    induction x as [|row x IH]; simpl; constructor; [|exact IH].
    destruct (stump_test row); eexists; eexists; repeat split; reflexivity.
Qed.

Lemma unit_scaler_interface : scaler_interface unit_scaler.
Proof.
  intros df scaled H. unfold unit_scaler in H; simpl in H.
  injection H as <-. apply length_map.
Qed.

(** Estimators that reject what they were not fitted on keep the
    interfaces as well. *)
Lemma strict_stump_interface : classifier_interface strict_stump.
Proof.
  intros x. destruct (stump_interface x) as [Hl Hp].
  unfold strict_stump; simpl.
  destruct (twenty_wide x); split; intros r H; try discriminate H;
    [apply Hl | apply Hp]; exact H.
Qed.

Example strict_stump_rejects :
  predict strict_stump [[]] =
    Raise (OtherError "X has a different number of features") /\
  transform strict_scaler {| columns := ["Age"]; rows := [[Int 40]] |} =
    Raise (OtherError "X has a different number of features").
Proof. split; reflexivity. Qed.

Lemma strict_scaler_interface : scaler_interface strict_scaler.
Proof.
  intros df scaled H. unfold strict_scaler in H; simpl in H.
  destruct (twenty_wide (rows df)); [|discriminate H].
  apply unit_scaler_interface. exact H.
Qed.

(** What the two indexings of the scorer pick out of the classifier's
    answers. *)
Lemma score_inversion (model : Classifier) (scaler : Scaler) (df : DataFrame)
    (label : Z) (probability : float) :
  score model scaler df = Return (label, probability) ->
  exists (scaled : ndarray) (labels : list Z) (first_row : list float)
         (more_rows : ndarray) (p0 : float) (more : list float),
    transform scaler df = Return scaled /\
    predict model scaled = Return (label :: labels) /\
    predict_proba model scaled = Return (first_row :: more_rows) /\
    first_row = p0 :: probability :: more.
Proof.
  unfold score. intros H.
  destruct (transform scaler df) as [scaled|e] eqn:Ht; simpl in H;
    [|discriminate].
  destruct (predict model scaled) as [[|l labels]|e] eqn:Hl; simpl in H;
    try discriminate.
  destruct (predict_proba model scaled) as [[|r more_rows]|e] eqn:Hp;
    simpl in H; try discriminate.
  destruct r as [|p0 [|p1 more]]; simpl in H; try discriminate.
  injection H as <- <-.
  exists scaled, labels, (p0 :: p1 :: more), more_rows, p0, more.
  repeat split; assumption.
Qed.

(** With one label and one probability row for the one row of the table,
    the two indexings of the scorer find their entries. *)
Lemma analyze_returns (model : Classifier) (scaler : Scaler)
    (expected_columns : list string) (f : FormInput)
    (df : DataFrame) (scaled : ndarray) (labels : list Z)
    (probabilities : ndarray) :
  classifier_interface model ->
  scaler_interface scaler ->
  input_df expected_columns f = Return df ->
  transform scaler df = Return scaled ->
  predict model scaled = Return labels ->
  predict_proba model scaled = Return probabilities ->
  exists (label : Z) (p0 probability : float),
    labels = [label] /\
    probabilities = [[p0; probability]] /\
    analyze model scaler expected_columns f = Return (label, probability).
Proof.
  intros Hmodel Hscaler Hdf Ht Hl Hp.
  rewrite input_df_eq in Hdf. injection Hdf as <-.
  pose proof (Hscaler _ _ Ht) as Hrows. simpl in Hrows.
  destruct (Hmodel scaled) as [Hlabels Hprobs].
  destruct (Hlabels labels Hl) as [Hlen _].
  destruct (Hprobs probabilities Hp) as [Hlen' Hpairs].
  rewrite Hrows in Hlen, Hlen'.
  destruct labels as [|label [|l2 labels]]; try discriminate Hlen.
  destruct probabilities as [|pair [|r2 rest]]; try discriminate Hlen'.
  inversion Hpairs as [|? ? [p0 [p1 [-> _]]] _]; subst.
  exists label, p0, p1. split; [reflexivity|]. split; [reflexivity|].
  unfold analyze. rewrite input_df_eq. simpl.
  unfold score. rewrite Ht. simpl. rewrite Hl. simpl. rewrite Hp.
  reflexivity.
Qed.

(** C7. With a classifier that keeps its interface, whatever scoring returns
    is a label in {0,1}, the first entry of [predict] on the scaled row,
    together with a probability in [0,1], the second entry of the first row
    of [predict_proba] on it; and when the scaler keeps its interface and
    the scaler and the classifier answer for the encoded row, scoring does
    return. *)
Theorem score_output (model : Classifier) (scaler : Scaler)
    (expected_columns : list string) (f : FormInput) :
  classifier_interface model ->
  (forall (label : Z) (probability : float),
      analyze model scaler expected_columns f = Return (label, probability) ->
      (label = 0 \/ label = 1) /\
      is_probability probability /\
      exists (df : DataFrame) (scaled : ndarray) (labels : list Z)
             (p0 : float) (more_rows : ndarray),
        input_df expected_columns f = Return df /\
        transform scaler df = Return scaled /\
        predict model scaled = Return (label :: labels) /\
        predict_proba model scaled =
          Return ([p0; probability] :: more_rows)) /\
  (scaler_interface scaler ->
   forall (df : DataFrame) (scaled : ndarray) (labels : list Z)
          (probabilities : ndarray),
     input_df expected_columns f = Return df ->
     transform scaler df = Return scaled ->
     predict model scaled = Return labels ->
     predict_proba model scaled = Return probabilities ->
     exists (label : Z) (probability : float),
       analyze model scaler expected_columns f = Return (label, probability)).
Proof.
  intros Hmodel. split.
  - unfold analyze. rewrite input_df_eq. simpl.
    set (df := {| columns := expected_columns;
                  rows := [map (encoded f) expected_columns] |}).
    intros label probability Hscore.
    destruct (score_inversion _ _ _ _ _ Hscore)
      as [scaled [labels [r [more_rows [p0 [more [Ht [Hl [Hp Hr]]]]]]]]].
    destruct (Hmodel scaled) as [Hlabels Hprobs].
    destruct (Hlabels _ Hl) as [_ Hrange].
    destruct (Hprobs _ Hp) as [_ Hpairs].
    inversion Hrange as [|l0 ls0 Hlabel _]; subst.
    inversion Hpairs as [|r1 rs1 [q0 [q1 [Hq [_ Hq1]]]] _]; subst.
    injection Hq as -> -> ->.
    split; [exact Hlabel|]. split; [exact Hq1|].
    exists df, scaled, labels, q0, more_rows.
    repeat split; assumption.
  - intros Hscaler df scaled labels probabilities Hdf Ht Hl Hp.
    destruct (analyze_returns _ _ _ _ _ _ _ _ Hmodel Hscaler Hdf Ht Hl Hp)
      as [label [p0 [probability [_ [_ H]]]]].
    exists label, probability. exact H.
Qed.

Lemma score_output_witness :
  classifier_interface strict_stump /\
  scaler_interface strict_scaler /\
  analyze strict_stump strict_scaler full_columns default_input =
    Return (0, 0.25%float) /\
  (0 = 0 \/ 0 = 1) /\
  is_probability 0.25 /\
  exists (label : Z) (probability : float),
    analyze strict_stump strict_scaler full_columns default_input =
      Return (label, probability).
Proof.
  split; [exact strict_stump_interface|].
  split; [exact strict_scaler_interface|].
  assert (H : analyze strict_stump strict_scaler full_columns default_input =
              Return (0, 0.25%float)).
  { vm_compute. reflexivity. }
  split; [exact H|].
  destruct (score_output strict_stump strict_scaler full_columns default_input
              strict_stump_interface) as [Hsafe Hlive].
  destruct (Hsafe 0 0.25%float H) as [Hl [Hp [df [scaled [labels [p0 [more
    [Hdf [Ht [Hpred Hproba]]]]]]]]]].
  split; [exact Hl|]. split; [exact Hp|].
  exact (Hlive strict_scaler_interface df scaled _ _ Hdf Ht Hpred Hproba).
Defined.

(** C8. Two runs whose eleven fields agree one by one, on the same loaded
    artifacts, build the same raw record and the same row, get the same label
    and the same probability, and render the same page; with the artifacts
    in the cache this holds whatever the disk and the record of opened paths
    are in either run. *)
Theorem encoding_deterministic (model : Classifier) (scaler : Scaler)
    (expected_columns : list string) (f1 f2 : FormInput) (pressed : bool) :
  age f1 = age f2 ->
  sex f1 = sex f2 ->
  chest_pain f1 = chest_pain f2 ->
  resting_bp f1 = resting_bp f2 ->
  cholesterol f1 = cholesterol f2 ->
  fasting_bs f1 = fasting_bs f2 ->
  resting_ecg f1 = resting_ecg f2 ->
  max_hr f1 = max_hr f2 ->
  exercise_angina f1 = exercise_angina f2 ->
  oldpeak f1 = oldpeak f2 ->
  st_slope f1 = st_slope f2 ->
  raw_input expected_columns f1 = raw_input expected_columns f2 /\
  input_df expected_columns f1 = input_df expected_columns f2 /\
  analyze model scaler expected_columns f1 =
    analyze model scaler expected_columns f2 /\
  (forall (disk1 disk2 : Disk) (p1 p2 : St.Process pickled),
      St.cache p1 = Some (Some model, Some scaler, Some expected_columns) ->
      St.cache p2 = Some (Some model, Some scaler, Some expected_columns) ->
      fst (script disk1 {| form := f1; analyze_risk := pressed |} p1) =
      fst (script disk2 {| form := f2; analyze_risk := pressed |} p2)).
Proof.
  intros H1 H2 H3 H4 H5 H6 H7 H8 H9 H10 H11.
  rewrite (form_input_ext f1 f2 H1 H2 H3 H4 H5 H6 H7 H8 H9 H10 H11).
  repeat split.
  intros disk1 disk2 p1 p2 Hc1 Hc2. unfold script, load_assets.
  rewrite (cache_data_hit _ _ _ _ _ Hc1), (cache_data_hit _ _ _ _ _ Hc2).
  destruct (loads_returns (Some model, Some scaler, Some expected_columns) p1)
    as [a1 [q1 [-> [Hd1 _]]]].
  destruct (loads_returns (Some model, Some scaler, Some expected_columns) p2)
    as [a2 [q2 [-> [Hd2 _]]]].
  rewrite (page_contents a1 a2) by congruence.
  destruct (page a2 _) as [shown out]. reflexivity.
Qed.

Lemma encoding_deterministic_witness :
  analyze stump unit_scaler full_columns
    {| age := 18 + 22; sex := "M"; chest_pain := "A" ++ "TA";
       resting_bp := 2 * 60; cholesterol := 200; fasting_bs := 0;
       resting_ecg := "Normal"; max_hr := 150; exercise_angina := "N";
       oldpeak := PrimFloat.add 0.5 0.5; st_slope := "Up" |} =
  analyze stump unit_scaler full_columns default_input.
Proof.
  exact (proj1 (proj2 (proj2
    (encoding_deterministic stump unit_scaler full_columns
       {| age := 18 + 22; sex := "M"; chest_pain := "A" ++ "TA";
          resting_bp := 2 * 60; cholesterol := 200; fasting_bs := 0;
          resting_ecg := "Normal"; max_hr := 150; exercise_angina := "N";
          oldpeak := PrimFloat.add 0.5 0.5; st_slope := "Up" |}
       default_input true
       eq_refl eq_refl eq_refl eq_refl eq_refl eq_refl eq_refl eq_refl
       eq_refl eq_refl eq_refl)))).
Defined.

(** ** Further properties of the encoder *)

Import Cover.

Lemma mem_In (k : string) (ks : list string) : mem k ks = true <-> In k ks.
Proof.
  unfold mem. split.
  - intros H. apply existsb_exists in H. destruct H as [k0 [Hin Heq]].
    apply String.eqb_eq in Heq. subst k0. exact Hin.
  - apply existsb_eqb_In.
Qed.

Lemma mem_app (k : string) (xs ys : list string) :
  mem k (xs ++ ys) = mem k xs || mem k ys.
Proof. unfold mem. apply existsb_app. Qed.

Lemma distinct_NoDup (ks : list string) : distinct ks = true -> NoDup ks.
Proof.
  induction ks as [|k rest IH]; simpl; intros H; constructor.
  - apply andb_prop in H. destruct H as [H _].
    intros Hin. apply mem_In in Hin. rewrite Hin in H. discriminate.
  - apply IH. apply andb_prop in H. tauto.
Qed.

(** Where [setitem] puts a key: nowhere new when it is bound, last when it
    is not. *)
Lemma keys_setitem_eq (d : dict) (k : string) (v : value) :
  keys (setitem d k v) = if mem k (keys d) then keys d else (keys d ++ [k])%list.
Proof.
  unfold keys, mem. induction d as [|[k0 v0] rest IH]; simpl.
  - reflexivity.
  - destruct (String.eqb k0 k); simpl; [reflexivity|].
    rewrite IH. destruct (existsb _ (map fst rest)); reflexivity.
Qed.

Lemma setitem_NoDup (d : dict) (k : string) (v : value) :
  NoDup (keys d) -> NoDup (keys (setitem d k v)).
Proof.
  intros Hd. rewrite keys_setitem_eq. destruct (mem k (keys d)) eqn:Hm.
  - exact Hd.
  - apply NoDup_app; [exact Hd | repeat constructor; simpl; tauto |].
    intros x Hx [<-|[]]. apply mem_In in Hx. congruence.
Qed.

Lemma update_NoDup (other d : dict) :
  NoDup (keys d) -> NoDup (keys (update d other)).
Proof.
  unfold update. revert d.
  induction other as [|[k v] rest IH]; intros d Hd; simpl; [exact Hd|].
  apply IH, setitem_NoDup, Hd.
Qed.

Lemma comprehension_NoDup (ks : list string) (v : value) :
  NoDup (keys (comprehension ks v)).
Proof.
  unfold comprehension.
  assert (H : forall d, NoDup (keys d) ->
                NoDup (keys (fold_left (fun acc k => setitem acc k v) ks d))).
  { induction ks as [|k rest IH]; intros d Hd; simpl; [exact Hd|].
    apply IH, setitem_NoDup, Hd. }
  apply H. constructor.
Qed.

(** A comprehension over distinct keys lists them in their order. *)
Lemma keys_comprehension (ks : list string) (v : value) :
  NoDup ks -> keys (comprehension ks v) = ks.
Proof.
  unfold comprehension.
  assert (H : forall d, NoDup (keys d ++ ks) ->
                keys (fold_left (fun acc k => setitem acc k v) ks d) =
                (keys d ++ ks)%list).
  { induction ks as [|k rest IH]; intros d Hd; simpl.
    - rewrite app_nil_r. reflexivity.
    - assert (Hk : mem k (keys d) = false).
      { destruct (mem k (keys d)) eqn:Hm; [|reflexivity].
        apply mem_In in Hm. apply NoDup_remove_2 in Hd.
        exfalso. apply Hd. apply in_or_app. left. exact Hm. }
      rewrite IH; rewrite keys_setitem_eq, Hk.
      + rewrite <- app_assoc. reflexivity.
      + rewrite <- app_assoc. exact Hd. }
  intros Hnd. apply (H []). exact Hnd.
Qed.

(** An update with distinct keys leaves the bound keys in place and puts
    the new ones behind them, in the order of the update. *)
Lemma keys_update_eq (other d : dict) :
  NoDup (keys other) ->
  keys (update d other) =
  (keys d ++ filter (fun k => negb (mem k (keys d))) (keys other))%list.
Proof.
  unfold update. revert d.
  induction other as [|[k v] rest IH]; intros d Hnd; simpl.
  - rewrite app_nil_r. reflexivity.
  - inversion Hnd as [|k' rest' Hk Hrest]; subst.
    rewrite (IH _ Hrest), keys_setitem_eq.
    destruct (mem k (keys d)) eqn:Hm; simpl.
    + reflexivity.
    + rewrite <- app_assoc. simpl. f_equal. f_equal.
      apply filter_ext_in. intros x Hx. rewrite mem_app.
      destruct (mem x (keys d)); simpl; [reflexivity|].
      unfold mem; simpl.
      destruct (String.eqb_spec k x) as [->|_]; [contradiction|reflexivity].
Qed.

Lemma written_names_distinct (f : FormInput) : NoDup (written_names f).
Proof. apply distinct_NoDup. destruct f. reflexivity. Qed.

Lemma In_keys_setitem (d : dict) (k c : string) (v : value) :
  In c (keys (setitem d k v)) <-> In c (keys d) \/ c = k.
Proof.
  rewrite keys_setitem_eq. destruct (mem k (keys d)) eqn:Hm.
  - apply mem_In in Hm. split; [tauto|]. intros [H| ->]; assumption.
  - rewrite in_app_iff. simpl. split; intros [H|H]; try tauto.
    + destruct H as [<-|[]]. right. reflexivity.
    + right. left. symmetry. exact H.
Qed.

Lemma In_keys_update (other d : dict) (c : string) :
  In c (keys (update d other)) <-> In c (keys d) \/ In c (keys other).
Proof.
  unfold update. revert d.
  induction other as [|[k v] rest IH]; intros d; simpl.
  - tauto.
  - rewrite IH, In_keys_setitem. split; intros H; intuition congruence.
Qed.

Lemma In_keys_comprehension (ks : list string) (v : value) (c : string) :
  In c (keys (comprehension ks v)) <-> In c ks.
Proof.
  rewrite keys_get, get_comprehension. fold (mem c ks).
  destruct (mem c ks) eqn:Hm.
  - apply mem_In in Hm. split; [tauto | discriminate].
  - split; [congruence|]. intros Hin. apply mem_In in Hin. congruence.
Qed.

(** X1. The raw record never binds a key twice, also when the expected columns
    list a name twice or name a key of the update; its keys are the expected
    columns together with the eleven keys of the update. *)
Theorem raw_input_keys_distinct (expected_columns : list string)
    (f : FormInput) :
  NoDup (keys (raw_input expected_columns f)) /\
  (forall c : string,
      In c (keys (raw_input expected_columns f)) <->
      In c expected_columns \/ In c (written_names f)).
Proof.
  split.
  - unfold raw_input. apply update_NoDup, comprehension_NoDup.
  - intros c. unfold raw_input. rewrite update_items.
    rewrite In_keys_update, In_keys_comprehension. reflexivity.
Qed.

(** X2. With distinct expected columns, the keys of the raw record are the
    expected columns in their order, followed by the keys of the update that
    no expected column names, in the order of the update. *)
Theorem raw_input_keys_order (expected_columns : list string)
    (f : FormInput) :
  NoDup expected_columns ->
  keys (raw_input expected_columns f) =
  (expected_columns ++
   filter (fun k => negb (mem k expected_columns)) (written_names f))%list.
Proof.
  intros Hnd. unfold raw_input. rewrite update_items.
  rewrite keys_update_eq.
  - rewrite (keys_comprehension _ _ Hnd). reflexivity.
  - exact (written_names_distinct f).
Qed.

Lemma raw_input_keys_order_witness :
  NoDup reduced_columns /\
  keys (raw_input reduced_columns default_input) =
  (reduced_columns ++ ["ExerciseAngina_N"])%list.
Proof.
  assert (Hnd : NoDup reduced_columns).
  { apply distinct_NoDup. reflexivity. }
  split; [exact Hnd|].
  exact (raw_input_keys_order reduced_columns default_input Hnd).
Defined.

Lemma encoded_numeric (f : FormInput) (c : string) (v : value) :
  numeric_value f c = Some v -> encoded f c = v.
Proof.
  unfold numeric_value.
  repeat match goal with
         | |- context [String.eqb c ?a] =>
             destruct (String.eqb_spec c a) as [->|_];
               [intros H; injection H as <-; reflexivity|]
         end.
  discriminate.
Qed.

Lemma encoded_unwritten (f : FormInput) (c : string) :
  ~ In c (written_names f) -> encoded f c = Int 0.
Proof.
  intros Hnot. unfold encoded.
  repeat match goal with
         | |- context [String.eqb ?a c] =>
             destruct (String.eqb_spec a c) as [E|_];
               [exfalso; apply Hnot; rewrite <- E;
                unfold written_names, numeric_columns, fields, one_hot;
                simpl; tauto|]
         end.
  reflexivity.
Qed.

(** X3. Each of the six numeric columns that is an expected column holds the
    number of its widget, unchanged, whatever strings the select boxes hold:
    no indicator name can collide with a numeric name. *)
Theorem numeric_columns_hold_fields (expected_columns : list string)
    (f : FormInput) (c : string) (v : value) :
  In c expected_columns ->
  numeric_value f c = Some v ->
  exists df : DataFrame,
    input_df expected_columns f = Return df /\ cell df c = Some v.
Proof.
  intros Hin Hnum. rewrite input_df_eq. eexists; split; [reflexivity|].
  rewrite cell_map by exact Hin. f_equal. apply encoded_numeric, Hnum.
Qed.

Lemma numeric_columns_hold_fields_witness :
  In "Cholesterol" reduced_columns /\
  numeric_value second_input "Cholesterol" = Some (Int 310) /\
  exists df : DataFrame,
    input_df reduced_columns second_input = Return df /\
    cell df "Cholesterol" = Some (Int 310).
Proof.
  assert (Hin : In "Cholesterol" reduced_columns).
  { apply mem_In. reflexivity. }
  split; [exact Hin|]. split; [reflexivity|].
  exact (numeric_columns_hold_fields reduced_columns second_input
           "Cholesterol" (Int 310) Hin eq_refl).
Defined.

(** X4. An expected column that is none of the eleven keys of the update holds
    0: a column of a category that was not selected, and just as well a
    column the form knows nothing about. *)
Theorem other_columns_hold_zero (expected_columns : list string)
    (f : FormInput) (c : string) :
  In c expected_columns ->
  ~ In c (written_names f) ->
  exists df : DataFrame,
    input_df expected_columns f = Return df /\ cell df c = Some (Int 0).
Proof.
  intros Hin Hnot. rewrite input_df_eq. eexists; split; [reflexivity|].
  rewrite cell_map by exact Hin. f_equal. apply encoded_unwritten, Hnot.
Qed.

Lemma other_columns_hold_zero_witness :
  In "BMI" ["Age"; "BMI"; "Sex_M"] /\
  ~ In "BMI" (written_names default_input) /\
  exists df : DataFrame,
    input_df ["Age"; "BMI"; "Sex_M"] default_input = Return df /\
    cell df "BMI" = Some (Int 0).
Proof.
  assert (Hin : In "BMI" ["Age"; "BMI"; "Sex_M"]).
  { apply mem_In. reflexivity. }
  assert (Hnot : ~ In "BMI" (written_names default_input)).
  { intros H. apply mem_In in H. discriminate H. }
  split; [exact Hin|]. split; [exact Hnot|].
  exact (other_columns_hold_zero _ default_input "BMI" Hin Hnot).
Defined.

(** X5. The table holds under every expected column what the raw record binds
    to that name: nothing is changed between the update and the scaler. *)
Theorem cell_is_raw_value (expected_columns : list string) (f : FormInput)
    (c : string) :
  In c expected_columns ->
  exists df : DataFrame,
    input_df expected_columns f = Return df /\
    cell df c = get (raw_input expected_columns f) c.
Proof.
  intros Hin. rewrite input_df_eq. eexists; split; [reflexivity|].
  rewrite cell_map by exact Hin. symmetry. apply get_raw_input, Hin.
Qed.

Lemma cell_is_raw_value_witness :
  In "Oldpeak" reduced_columns /\
  exists df : DataFrame,
    input_df reduced_columns default_input = Return df /\
    cell df "Oldpeak" = get (raw_input reduced_columns default_input) "Oldpeak".
Proof.
  assert (Hin : In "Oldpeak" reduced_columns).
  { apply mem_In. reflexivity. }
  split; [exact Hin|].
  exact (cell_is_raw_value reduced_columns default_input "Oldpeak" Hin).
Defined.

(** X6. What a column holds does not depend on the rest of the schema: two
    schemas that both have the column, in any position and with any other
    columns around it, give it the same cell. *)
Theorem cell_independent_of_schema (schema1 schema2 : list string)
    (f : FormInput) (c : string) :
  In c schema1 ->
  In c schema2 ->
  exists df1 df2 : DataFrame,
    input_df schema1 f = Return df1 /\
    input_df schema2 f = Return df2 /\
    cell df1 c = cell df2 c.
Proof.
  intros H1 H2. rewrite !input_df_eq. eexists; eexists.
  split; [reflexivity|]. split; [reflexivity|].
  rewrite !cell_map by assumption. reflexivity.
Qed.

Lemma cell_independent_of_schema_witness :
  In "ST_Slope_Up" full_columns /\
  In "ST_Slope_Up" (rev reduced_columns) /\
  exists df1 df2 : DataFrame,
    input_df full_columns default_input = Return df1 /\
    input_df (rev reduced_columns) default_input = Return df2 /\
    cell df1 "ST_Slope_Up" = cell df2 "ST_Slope_Up".
Proof.
  assert (H1 : In "ST_Slope_Up" full_columns).
  { apply mem_In. reflexivity. }
  assert (H2 : In "ST_Slope_Up" (rev reduced_columns)).
  { apply mem_In. reflexivity. }
  split; [exact H1|]. split; [exact H2|].
  exact (cell_independent_of_schema _ _ default_input "ST_Slope_Up" H1 H2).
Defined.

Lemma one_hot_indicator (f : FormInput) (fd : field) :
  valid_input f -> In (one_hot fd f) indicator_columns.
Proof.
  intros Hv. unfold indicator_columns. apply in_flat_map.
  exists fd. split.
  - destruct fd; simpl; tauto.
  - unfold one_hot. apply in_map, valid_selected, Hv.
Qed.

(** X7. With a schema that has an indicator column for every option of every
    select box, no valid form loses an indicator: every selection finds its
    column, and the column holds 1. *)
Theorem covering_schema_keeps_indicators (expected_columns : list string)
    (f : FormInput) (fd : field) :
  valid_input f ->
  incl indicator_columns expected_columns ->
  In (one_hot fd f) expected_columns /\
  exists df : DataFrame,
    input_df expected_columns f = Return df /\
    cell df (one_hot fd f) = Some (Int 1).
Proof.
  intros Hv Hincl.
  assert (Hin : In (one_hot fd f) expected_columns).
  { apply Hincl, one_hot_indicator, Hv. }
  split; [exact Hin|].
  rewrite input_df_eq. eexists; split; [reflexivity|].
  rewrite cell_map by exact Hin. f_equal. apply encoded_one_hot.
Qed.

Lemma covering_schema_keeps_indicators_witness :
  valid_input default_input /\
  incl indicator_columns full_columns /\
  In (one_hot ExerciseAngina default_input) full_columns /\
  exists df : DataFrame,
    input_df full_columns default_input = Return df /\
    cell df (one_hot ExerciseAngina default_input) = Some (Int 1).
Proof.
  assert (Hincl : incl indicator_columns full_columns).
  { intros c Hc. apply mem_In. revert c Hc.
    apply (forallb_forall (fun c => mem c full_columns)). reflexivity. }
  split; [exact valid_default_input|]. split; [exact Hincl|].
  exact (covering_schema_keeps_indicators full_columns default_input
           ExerciseAngina valid_default_input Hincl).
Defined.

(** X8. The projection returns exactly when the record binds every label that
    is asked for; a label that it does not bind makes it raise [KeyError]. *)
Theorem getitem_returns_iff (d : dict) (wanted : list string) :
  ((exists df : DataFrame, getitem (of_record d) wanted = Return df) <->
   (forall c : string, In c wanted -> In c (keys d))) /\
  (forall c : string,
      In c wanted -> ~ In c (keys d) ->
      exists c' : string, getitem (of_record d) wanted = Raise (KeyError c')).
Proof.
  split; [split|].
  - intros [df Hdf] c Hin. apply keys_get. intros Hnone.
    destruct (getitem_missing d wanted c Hin Hnone) as [c' Hc'].
    congruence.
  - intros Hall.
    rewrite (getitem_of_record d
               (fun c => match get d c with Some v => v | None => Int 0 end)).
    + eexists. reflexivity.
    + intros c Hin. apply Hall, keys_get in Hin.
      destruct (get d c); congruence.
  - intros c Hin Hnot. apply (getitem_missing d wanted c Hin).
    destruct (get d c) eqn:E; [|reflexivity].
    exfalso. apply Hnot, keys_get. congruence.
Qed.

(** ** Further properties of the asset loader *)

Lemma load_assets_stored (disk : Disk) (p : St.Process pickled)
    (m : Classifier) (s : Scaler) (c : list string) :
  St.cache p = None ->
  KNN_heart_pkl disk = Stored m ->
  scaler_pkl disk = Stored s ->
  columns_pkl disk = Stored c ->
  load_assets disk p =
    (Return (Some {| addr := St.allocated p; val := m |},
             Some {| addr := S (St.allocated p); val := s |},
             Some {| addr := S (S (St.allocated p)); val := c |}),
     {| St.cache := Some (Some m, Some s, Some c);
        St.reads := (St.reads p ++ asset_paths)%list;
        St.allocated := S (S (S (St.allocated p))) |}).
Proof.
  intros Hc Hm Hs Hcols. destruct disk as [f1 f2 f3]. simpl in *. subst.
  unfold load_assets, St.cache_data. rewrite Hc.
  unfold load_assets_body, load, St.bind, St.opened, St.new, St.ret. simpl.
  rewrite <- !app_assoc. reflexivity.
Qed.

(** X9. With nothing cached, the loader returns three assets exactly when all
    three files are in place; it then has opened the three paths in the
    order classifier, scaler, columns, the three objects hold what the files
    hold, and their pickle is in the cache. *)
Theorem load_assets_loads (disk : Disk) (p : St.Process pickled) :
  St.cache p = None ->
  ((exists (m : Classifier) (s : Scaler) (c : list string),
       contents (fst (load_assets disk p)) = Return (Some m, Some s, Some c))
   <-> all_stored disk) /\
  (forall (m : Classifier) (s : Scaler) (c : list string),
      contents (fst (load_assets disk p)) = Return (Some m, Some s, Some c) ->
      KNN_heart_pkl disk = Stored m /\
      scaler_pkl disk = Stored s /\
      columns_pkl disk = Stored c /\
      St.reads (snd (load_assets disk p)) = (St.reads p ++ asset_paths)%list /\
      St.cache (snd (load_assets disk p)) = Some (Some m, Some s, Some c)).
Proof.
  intros Hc. split; [split|].
  - intros [m [s [c H]]]. unfold load_assets in H.
    rewrite (cache_data_miss _ _ _ _ Hc), load_assets_body_result in H.
    unfold all_stored.
    destruct disk as [[|m0|e1] [|s0|e2] [|c0|e3]]; simpl in *;
      try discriminate H; repeat split.
  - intros [H1 [H2 H3]].
    destruct disk as [[|m|e1] [|s|e2] [|c|e3]]; simpl in *;
      try discriminate.
    exists m, s, c.
    rewrite (load_assets_stored (mkDisk (Stored m) (Stored s) (Stored c))
               p m s c Hc eq_refl eq_refl eq_refl).
    reflexivity.
  - intros m s c H.
    assert (Hfiles : KNN_heart_pkl disk = Stored m /\
                     scaler_pkl disk = Stored s /\
                     columns_pkl disk = Stored c).
    { unfold load_assets in H.
      rewrite (cache_data_miss _ _ _ _ Hc), load_assets_body_result in H.
      destruct disk as [[|m0|e1] [|s0|e2] [|c0|e3]]; simpl in *;
        try discriminate H.
      injection H as -> -> ->. repeat split. }
    destruct Hfiles as [Hm [Hs Hcols]].
    rewrite (load_assets_stored disk p m s c Hc Hm Hs Hcols).
    repeat split; assumption.
Qed.

Lemma load_assets_loads_witness :
  St.cache (@St.fresh pickled) = None /\
  all_stored complete_disk /\
  contents (fst (load_assets complete_disk St.fresh)) =
    Return (Some stump, Some unit_scaler, Some full_columns) /\
  St.reads (snd (load_assets complete_disk St.fresh)) =
    ["KNN_heart.pkl"; "scaler.pkl"; "columns.pkl"].
Proof.
  assert (Hall : all_stored complete_disk).
  { repeat split. }
  assert (Hret : contents (fst (load_assets complete_disk St.fresh)) =
                 Return (Some stump, Some unit_scaler, Some full_columns)).
  { reflexivity. }
  split; [reflexivity|]. split; [exact Hall|]. split; [exact Hret|].
  destruct (proj2 (load_assets_loads complete_disk St.fresh eq_refl)
              stump unit_scaler full_columns Hret) as [_ [_ [_ [Hreads _]]]].
  exact Hreads.
Defined.

(** X10. The only exception that leaves the loader is the one of a file that does
    not unpickle, met before any absent file, on a call that runs the body:
    no [FileNotFoundError] ever leaves it.  And such a file does make it
    raise. *)
Theorem load_assets_raises (disk : Disk) (p : St.Process pickled) :
  (forall e : exn,
      fst (load_assets disk p) = Raise e ->
      St.cache p = None /\
      first_failure_corrupt disk /\
      exists msg : string, e = OtherError msg) /\
  (St.cache p = None ->
   first_failure_corrupt disk ->
   exists msg : string, fst (load_assets disk p) = Raise (OtherError msg)).
Proof.
  split.
  - intros e He. destruct (St.cache p) as [entry|] eqn:Hc.
    + exfalso. unfold load_assets in He.
      rewrite (cache_data_hit _ _ _ _ _ Hc) in He.
      destruct (loads_returns entry p) as [a [p' [Hl _]]].
      rewrite Hl in He. discriminate He.
    + split; [reflexivity|].
      unfold load_assets in He. rewrite (cache_data_miss _ _ _ _ Hc) in He.
      rewrite load_assets_body_result in He.
      unfold first_failure_corrupt.
      destruct disk as [[|m|e1] [|s|e2] [|c|e3]]; simpl in *;
        try discriminate He; injection He as <-;
        (split; [tauto | eexists; reflexivity]).
  - intros Hc Hfirst. unfold load_assets.
    rewrite (cache_data_miss _ _ _ _ Hc), load_assets_body_result.
    unfold first_failure_corrupt in Hfirst.
    destruct disk as [[|m|e1] [|s|e2] [|c|e3]]; simpl in *;
      try (eexists; reflexivity);
      exfalso; intuition discriminate.
Qed.

(** X11. On a call that runs the body, the loads stop at the first file that
    fails: the paths opened are the first one, two or three of the three
    paths, up to and with that file. *)
Theorem load_assets_opens_prefix (disk : Disk) (p : St.Process pickled) :
  St.cache p = None ->
  St.reads (snd (load_assets disk p)) =
  (St.reads p ++ firstn (loads_started disk) asset_paths)%list.
Proof.
  intros Hc. unfold load_assets, St.cache_data. rewrite Hc.
  destruct disk as [[|m|e1] [|s|e2] [|c|e3]]; simpl;
    rewrite <- ?app_assoc; reflexivity.
Qed.

Lemma load_assets_opens_prefix_witness :
  St.cache (@St.fresh pickled) = None /\
  St.reads (snd (load_assets
                   {| KNN_heart_pkl := Stored stump; scaler_pkl := Absent;
                      columns_pkl := Stored full_columns |} St.fresh)) =
  ["KNN_heart.pkl"; "scaler.pkl"].
Proof.
  split; [reflexivity|].
  exact (load_assets_opens_prefix
           {| KNN_heart_pkl := Stored stump; scaler_pkl := Absent;
              columns_pkl := Stored full_columns |} St.fresh eq_refl).
Defined.

Lemma whole_step (disk : Disk) (p p' : St.Process pickled) (a : assets) :
  (forall entry, St.cache p = Some entry -> whole entry) ->
  load_assets disk p = (Return a, p') ->
  whole (dumps a) /\
  (forall entry, St.cache p' = Some entry -> whole entry).
Proof.
  intros Hinv Hload.
  assert (Hw : whole (dumps a)).
  { destruct (St.cache p) as [entry|] eqn:Hc.
    - unfold load_assets in Hload.
      rewrite (cache_data_hit _ _ _ _ _ Hc) in Hload.
      destruct (loads_returns entry p) as [a' [q [Hl [Hd _]]]].
      rewrite Hl in Hload. injection Hload as <- <-.
      rewrite Hd. apply Hinv. reflexivity.
    - pose proof (f_equal fst Hload) as H. simpl in H.
      unfold load_assets in H. rewrite (cache_data_miss _ _ _ _ Hc) in H.
      rewrite load_assets_body_result in H.
      destruct disk as [[|m|e1] [|s|e2] [|c|e3]]; simpl in H;
        try discriminate H; injection H as <-;
        solve [left; reflexivity
              | right; eexists; eexists; eexists; reflexivity]. }
  split; [exact Hw|].
  intros entry Hentry. rewrite (load_assets_stores _ _ _ _ Hload) in Hentry.
  injection Hentry as <-. exact Hw.
Qed.

(** X12. The loader hands back all three assets or none, on the first call of a
    process and on every later one, whatever the disk holds at each call:
    a triple with one or two parts missing never reaches the script. *)
Theorem assets_all_or_none (disks : list Disk) :
  Forall (fun r => forall a : assets, r = Return a -> whole (dumps a))
         (fst (later_calls disks St.fresh)).
Proof.
  assert (H : forall (p : St.Process pickled),
             (forall entry, St.cache p = Some entry -> whole entry) ->
             Forall (fun r => forall a : assets, r = Return a ->
                                                 whole (dumps a))
                    (fst (later_calls disks p))).
  { induction disks as [|disk rest IH]; intros p Hinv; simpl.
    - constructor.
    - destruct (load_assets disk p) as [r p'] eqn:Hload.
      specialize (IH p').
      destruct (later_calls rest p') as [rs p'']. simpl in *.
      destruct r as [a|e].
      + destruct (whole_step disk p p' a Hinv Hload) as [Hw Hinv'].
        constructor; [|exact (IH Hinv')].
        intros a' Ha'. injection Ha' as <-. exact Hw.
      + constructor; [intros a' Ha'; discriminate Ha'|].
        apply IH. intros entry Hentry.
        unfold load_assets, St.cache_data in Hload.
        destruct (St.cache p) as [entry0|] eqn:Hc.
        * destruct (loads_returns entry0 p) as [a' [q [Hl _]]].
          rewrite Hl in Hload. discriminate Hload.
        * destruct (load_assets_body disk p) as [[a1|e1] p1] eqn:Hb;
            [discriminate Hload|].
          injection Hload as <- <-.
          assert (Hnone : St.cache p1 = None).
          { clear -Hb Hc.
            destruct disk as [[|m|x1] [|s|x2] [|c|x3]];
              unfold load_assets_body, load, St.bind, St.opened, St.new,
                St.ret in Hb; simpl in Hb;
              injection Hb as _ <-; exact Hc. }
          congruence. }
  apply H. intros entry Hentry. discriminate Hentry.
Qed.

(** X13. The sentinel is cached like any other return value: once a run has
    found a file missing, every later run of the same process shows the
    missing-files error and stops, also after the files have been put in
    place, and opens no file to find out. *)
Theorem missing_files_stay_missing (disk0 disk : Disk)
    (p0 p1 : St.Process pickled) (s : Session) :
  load_assets disk0 p0 = (Return unavailable, p1) ->
  script disk s p1 =
    ((preamble ++ [St.error missing_files_message])%list, St.Stopped, p1).
Proof.
  intros Hfirst.
  pose proof (load_assets_stores _ _ _ _ Hfirst) as Hc. simpl in Hc.
  unfold script, load_assets. rewrite (cache_data_hit _ _ _ _ _ Hc).
  destruct p1 as [c r n]. reflexivity.
Qed.

Lemma missing_files_stay_missing_witness :
  load_assets empty_disk St.fresh =
    (Return unavailable,
     {| St.cache := Some (None, None, None); St.reads := ["KNN_heart.pkl"];
        St.allocated := 0 |}) /\
  script complete_disk {| form := default_input; analyze_risk := true |}
    {| St.cache := Some (None, None, None); St.reads := ["KNN_heart.pkl"];
       St.allocated := 0 |} =
    ([St.page_config "Heart Risk Analyzer"; St.theme_css;
      St.error "Error: Critical model files are missing."], St.Stopped,
     {| St.cache := Some (None, None, None); St.reads := ["KNN_heart.pkl"];
        St.allocated := 0 |}).
Proof.
  split; [reflexivity|].
  exact (missing_files_stay_missing empty_disk complete_disk St.fresh _
           {| form := default_input; analyze_risk := true |} eq_refl).
Defined.

(** X14. An exception is not cached: a call that raised leaves the cache empty,
    so the next call runs the body again and, with the three files in place
    by then, returns what they hold. *)
Theorem failed_load_is_retried (disk0 disk : Disk)
    (p0 p1 : St.Process pickled) (e : exn)
    (m : Classifier) (s : Scaler) (c : list string) :
  load_assets disk0 p0 = (Raise e, p1) ->
  KNN_heart_pkl disk = Stored m ->
  scaler_pkl disk = Stored s ->
  columns_pkl disk = Stored c ->
  St.cache p1 = None /\
  contents (fst (load_assets disk p1)) = Return (Some m, Some s, Some c) /\
  St.reads (snd (load_assets disk p1)) = (St.reads p1 ++ asset_paths)%list.
Proof.
  intros Hfail Hm Hs Hcols.
  assert (Hnone : St.cache p1 = None).
  { unfold load_assets, St.cache_data in Hfail.
    destruct (St.cache p0) as [entry|] eqn:Hc.
    - destruct (loads_returns entry p0) as [a [q [Hl _]]].
      rewrite Hl in Hfail. discriminate Hfail.
    - destruct disk0 as [[|m0|x1] [|s0|x2] [|c0|x3]];
        unfold load_assets_body, load, St.bind, St.opened, St.new, St.ret
          in Hfail; simpl in Hfail;
        try discriminate Hfail; injection Hfail as _ <-; exact Hc. }
  split; [exact Hnone|].
  rewrite (load_assets_stored disk p1 m s c Hnone Hm Hs Hcols).
  split; reflexivity.
Qed.

Lemma failed_load_is_retried_witness :
  load_assets damaged_disk St.fresh =
    (Raise (OtherError "invalid load key"),
     {| St.cache := None; St.reads := ["KNN_heart.pkl"];
        St.allocated := 0 |}) /\
  contents (fst (load_assets complete_disk
                   {| St.cache := None; St.reads := ["KNN_heart.pkl"];
                      St.allocated := 0 |})) =
    Return (Some stump, Some unit_scaler, Some full_columns).
Proof.
  split; [reflexivity|].
  exact (proj1 (proj2 (failed_load_is_retried damaged_disk complete_disk
                         St.fresh _ _ stump unit_scaler full_columns
                         eq_refl eq_refl eq_refl eq_refl))).
Defined.

(** X15. A columns file that holds the empty list is treated like a missing
    file: the list is false in the check of the assets, so the run shows the
    missing-files error and stops although all three files were read. *)
Theorem empty_columns_halt (disk : Disk) (p : St.Process pickled)
    (s : Session) (m : Classifier) (sc : Scaler) :
  St.cache p = None ->
  KNN_heart_pkl disk = Stored m ->
  scaler_pkl disk = Stored sc ->
  columns_pkl disk = Stored [] ->
  fst (script disk s p) =
    ((preamble ++ [St.error missing_files_message])%list, St.Stopped) /\
  St.reads (snd (script disk s p)) = (St.reads p ++ asset_paths)%list.
Proof.
  intros Hc Hm Hs Hcols. unfold script.
  rewrite (load_assets_stored disk p m sc [] Hc Hm Hs Hcols).
  split; reflexivity.
Qed.

Lemma empty_columns_halt_witness :
  fst (script {| KNN_heart_pkl := Stored stump;
                 scaler_pkl := Stored unit_scaler;
                 columns_pkl := Stored [] |}
              {| form := default_input; analyze_risk := true |} St.fresh) =
    ([St.page_config "Heart Risk Analyzer"; St.theme_css;
      St.error "Error: Critical model files are missing."], St.Stopped).
Proof.
  exact (proj1 (empty_columns_halt
                  {| KNN_heart_pkl := Stored stump;
                     scaler_pkl := Stored unit_scaler;
                     columns_pkl := Stored [] |}
                  St.fresh {| form := default_input; analyze_risk := true |}
                  stump unit_scaler eq_refl eq_refl eq_refl eq_refl)).
Defined.

(** ** Further properties of the scorer and the page *)

(** X16. Scoring returns exactly when the scaler returns, [predict] returns at
    least one label and [predict_proba] returns at least one row with at
    least two entries; the result is the first label and the second entry
    of the first row, and further labels, rows and entries are ignored. *)
Theorem score_returns_iff (model : Classifier) (scaler : Scaler)
    (df : DataFrame) (label : Z) (probability : float) :
  score model scaler df = Return (label, probability) <->
  exists (scaled : ndarray) (labels : list Z) (p0 : float)
         (more : list float) (more_rows : ndarray),
    transform scaler df = Return scaled /\
    predict model scaled = Return (label :: labels) /\
    predict_proba model scaled =
      Return ((p0 :: probability :: more) :: more_rows).
Proof.
  split.
  - intros H.
    destruct (score_inversion _ _ _ _ _ H)
      as [scaled [labels [r [more_rows [p0 [more [Ht [Hl [Hp ->]]]]]]]]].
    exists scaled, labels, p0, more, more_rows. repeat split; assumption.
  - intros [scaled [labels [p0 [more [more_rows [Ht [Hl Hp]]]]]]].
    unfold score. rewrite Ht. simpl. rewrite Hl. simpl. rewrite Hp.
    reflexivity.
Qed.

(** X17. When [predict] returns no label, or [predict_proba] returns no row or a
    first row with fewer than two entries (a classifier fitted on a single
    class), the indexing raises [IndexError]. *)
Theorem short_answers_raise_index_error (model : Classifier)
    (scaler : Scaler) (df : DataFrame) (scaled : ndarray) :
  transform scaler df = Return scaled ->
  predict model scaled = Return [] \/
  (exists (labels : list Z),
      predict model scaled = Return labels /\ labels <> [] /\
      (predict_proba model scaled = Return [] \/
       exists (row : list float) (more_rows : ndarray),
         predict_proba model scaled = Return (row :: more_rows) /\
         (List.length row < 2)%nat)) ->
  score model scaler df = Raise IndexError.
Proof.
  intros Ht H. unfold score. rewrite Ht. simpl.
  destruct H as [Hl | [labels [Hl [Hne H]]]]; rewrite Hl; simpl.
  - reflexivity.
  - destruct labels as [|l labels]; [contradiction|]. simpl.
    destruct H as [Hp | [row [more_rows [Hp Hlen]]]]; rewrite Hp; simpl.
    + reflexivity.
    + destruct row as [|p0 [|p1 more]]; simpl in *; try reflexivity.
      exfalso. apply (Nat.lt_irrefl 2).
      apply (Nat.le_lt_trans _ (S (S (List.length more)))); [|exact Hlen].
      apply le_n_S, le_n_S, Nat.le_0_l.
Qed.

Lemma short_answers_raise_index_error_witness :
  analyze one_class unit_scaler full_columns default_input = Raise IndexError /\
  score one_class unit_scaler
    {| columns := ["Age"]; rows := [[Int 40]] |} = Raise IndexError.
Proof.
  split; [reflexivity|].
  apply (short_answers_raise_index_error one_class unit_scaler
           {| columns := ["Age"]; rows := [[Int 40]] |}
           [[PrimFloat.of_uint63 (Uint63.of_Z 40)]] eq_refl).
  right. exists [0]. split; [reflexivity|]. split; [discriminate|].
  right. exists [1.0%float], []. split; [reflexivity|].
  apply le_n.
Defined.

Lemma page_ready (model : object Classifier) (scaler : object Scaler)
    (expected_columns : object (list string)) (s : Session) :
  val expected_columns <> [] ->
  page (Some model, Some scaler, Some expected_columns) s =
  if analyze_risk s then
    match
      analyze (val model) (val scaler) (val expected_columns) (form s)
    with
    | Return (prediction, probability) =>
        ((form_page ++ display_results prediction probability)%list,
         St.Completed)
    | Raise e => (form_page, St.Uncaught e)
    end
  else (form_page, St.Completed).
Proof.
  intros Hne. unfold page, all_assets, truthy_list. simpl.
  destruct expected_columns as [n [|c cs]]; [contradiction|]. reflexivity.
Qed.

Lemma existsb_result_display (l : Z) (p : float) :
  existsb is_result_element (form_page ++ display_results l p) = true.
Proof.
  rewrite existsb_app. apply orb_true_iff. right.
  unfold display_results. simpl. destruct (Z.eqb l 1); reflexivity.
Qed.

(** X18. With the assets in place, results are on the page exactly when the
    button was pressed and scoring returned; otherwise the page is the
    sidebar, the header, the form and the button, and nothing else. *)
Theorem results_shown_iff (model : object Classifier)
    (scaler : object Scaler) (expected_columns : object (list string))
    (s : Session) :
  val expected_columns <> [] ->
  (existsb is_result_element
     (fst (page (Some model, Some scaler, Some expected_columns) s)) = true <->
   analyze_risk s = true /\
   exists (label : Z) (probability : float),
     analyze (val model) (val scaler) (val expected_columns) (form s) =
     Return (label, probability)) /\
  (existsb is_result_element
     (fst (page (Some model, Some scaler, Some expected_columns) s)) = false ->
   fst (page (Some model, Some scaler, Some expected_columns) s) = form_page).
Proof.
  intros Hne. rewrite (page_ready _ _ _ _ Hne).
  assert (Hform : existsb is_result_element form_page = false).
  { vm_compute. reflexivity. }
  destruct (analyze_risk s).
  - destruct (analyze _ _ _ _) as [[l p]|e]; cbn [fst].
    + rewrite existsb_result_display. split.
      * split; [intros _; split; [reflexivity|]; exists l, p; reflexivity
               | reflexivity].
      * discriminate.
    + rewrite Hform. split; [|reflexivity]. split.
      * discriminate.
      * intros [_ [l [p H]]]. discriminate H.
  - cbn [fst]. rewrite Hform. split; [|reflexivity]. split.
    + discriminate.
    + intros [H _]. discriminate H.
Qed.

Lemma results_shown_iff_witness :
  val {| addr := 2; val := full_columns |} <> [] /\
  existsb is_result_element
    (fst (page (Some {| addr := 0; val := stump |},
                Some {| addr := 1; val := unit_scaler |},
                Some {| addr := 2; val := full_columns |})
               {| form := second_input; analyze_risk := true |})) = true.
Proof.
  assert (Hne : val {| addr := 2%nat; val := full_columns |} <> []).
  { discriminate. }
  split; [exact Hne|].
  apply (proj1 (results_shown_iff {| addr := 0; val := stump |}
                  {| addr := 1; val := unit_scaler |}
                  {| addr := 2; val := full_columns |}
                  {| form := second_input; analyze_risk := true |} Hne)).
  split; [reflexivity|].
  exists 1, 0.75%float. vm_compute. reflexivity.
Defined.

(** X19. An exception of the encoder, the scaler or the classifier is not caught:
    with the assets in place, a run ends with an uncaught exception exactly
    when the button was pressed and scoring raised it, and then the page
    shows the form and no result. *)
Theorem scoring_exception_surfaces (model : object Classifier)
    (scaler : object Scaler) (expected_columns : object (list string))
    (s : Session) (e : exn) :
  val expected_columns <> [] ->
  (snd (page (Some model, Some scaler, Some expected_columns) s) =
     St.Uncaught e <->
   analyze_risk s = true /\
   analyze (val model) (val scaler) (val expected_columns) (form s) =
     Raise e) /\
  (snd (page (Some model, Some scaler, Some expected_columns) s) =
     St.Uncaught e ->
   fst (page (Some model, Some scaler, Some expected_columns) s) = form_page).
Proof.
  intros Hne. rewrite (page_ready _ _ _ _ Hne).
  destruct (analyze_risk s).
  - destruct (analyze _ _ _ _) as [[l p]|e']; cbn [fst snd].
    + split; [|discriminate]. split; [discriminate|].
      intros [_ H]. discriminate H.
    + split; [|reflexivity]. split.
      * intros H. injection H as ->. split; reflexivity.
      * intros [_ H]. injection H as ->. reflexivity.
  - cbn [fst snd]. split; [|discriminate]. split; [discriminate|].
    intros [H _]. discriminate H.
Qed.

Lemma scoring_exception_surfaces_witness :
  val {| addr := 2; val := full_columns |} <> [] /\
  page (Some {| addr := 0; val := stump |},
        Some {| addr := 1; val := rejecting_scaler |},
        Some {| addr := 2; val := full_columns |})
       {| form := default_input; analyze_risk := true |} =
    (form_page, St.Uncaught (OtherError "feature names mismatch")).
Proof.
  assert (Hne : val {| addr := 2%nat; val := full_columns |} <> []).
  { discriminate. }
  split; [exact Hne|].
  destruct (scoring_exception_surfaces {| addr := 0; val := stump |}
              {| addr := 1; val := rejecting_scaler |}
              {| addr := 2; val := full_columns |}
              {| form := default_input; analyze_risk := true |}
              (OtherError "feature names mismatch") Hne) as [Hiff Hpage].
  assert (Hout : snd (page (Some {| addr := 0%nat; val := stump |},
                            Some {| addr := 1%nat; val := rejecting_scaler |},
                            Some {| addr := 2%nat; val := full_columns |})
                           {| form := default_input; analyze_risk := true |}) =
                 St.Uncaught (OtherError "feature names mismatch")).
  { apply Hiff. split; reflexivity. }
  specialize (Hpage Hout).
  destruct (page _ _) as [shown out]. simpl in *. subst. reflexivity.
Defined.

(** X20. The finding follows the label alone: a run that scores shows exactly one
    finding, high risk when the label is 1 and low risk for every other
    label, whatever the probability is; the probability goes to the text and,
    times 100, to the gauge. *)
Theorem finding_follows_label (model : object Classifier)
    (scaler : object Scaler) (expected_columns : object (list string))
    (s : Session) (label : Z) (probability : float) :
  val expected_columns <> [] ->
  analyze_risk s = true ->
  analyze (val model) (val scaler) (val expected_columns) (form s) =
    Return (label, probability) ->
  filter is_finding
    (fst (page (Some model, Some scaler, Some expected_columns) s)) =
    [if Z.eqb label 1 then St.error "Finding: High Risk Detected"
     else St.success "Finding: Low Risk Detected"] /\
  filter is_result_element
    (fst (page (Some model, Some scaler, Some expected_columns) s)) =
    [if Z.eqb label 1 then St.error "Finding: High Risk Detected"
     else St.success "Finding: Low Risk Detected";
     St.probability_markdown probability;
     St.plotly_chart (PrimFloat.mul probability 100)].
Proof.
  intros Hne Hpressed Hscore.
  rewrite (page_ready _ _ _ _ Hne), Hpressed, Hscore. cbn [fst].
  rewrite !filter_app. unfold display_results.
  assert (H1 : filter is_finding form_page = []) by (vm_compute; reflexivity).
  assert (H2 : filter is_result_element form_page = [])
    by (vm_compute; reflexivity).
  rewrite H1, H2. destruct (Z.eqb label 1); split; reflexivity.
Qed.

Lemma finding_follows_label_witness :
  filter is_finding
    (fst (page (Some {| addr := 0; val := stump |},
                Some {| addr := 1; val := unit_scaler |},
                Some {| addr := 2; val := full_columns |})
               {| form := second_input; analyze_risk := true |})) =
    [St.error "Finding: High Risk Detected"].
Proof.
  assert (Hne : val {| addr := 2%nat; val := full_columns |} <> []).
  { discriminate. }
  assert (Hscore : analyze stump unit_scaler full_columns second_input =
                   Return (1, 0.75%float)).
  { vm_compute. reflexivity. }
  exact (proj1 (finding_follows_label {| addr := 0; val := stump |}
                  {| addr := 1; val := unit_scaler |}
                  {| addr := 2; val := full_columns |}
                  {| form := second_input; analyze_risk := true |}
                  1 0.75%float Hne eq_refl Hscore)).
Defined.

(** X21. A visit and an analysis: when the three files are in place with a
    non-empty list of columns, the first run of a process (no button pressed
    yet) opens the three files and shows the form; a later run with the
    button pressed, for a form that scoring returns on, opens no file,
    whatever the disk holds by then, and shows the form followed by the
    results for that label and probability, which a classifier that keeps
    its interface puts in {0,1} and [0,1]. *)
Theorem visit_then_analysis (disk later : Disk) (f0 f : FormInput)
    (m : Classifier) (sc : Scaler) (c : list string)
    (label : Z) (probability : float) :
  KNN_heart_pkl disk = Stored m ->
  scaler_pkl disk = Stored sc ->
  columns_pkl disk = Stored c ->
  c <> [] ->
  analyze m sc c f = Return (label, probability) ->
  exists p1 p2 : St.Process pickled,
    script disk {| form := f0; analyze_risk := false |} St.fresh =
      ((preamble ++ form_page)%list, St.Completed, p1) /\
    St.reads p1 = asset_paths /\
    script later {| form := f; analyze_risk := true |} p1 =
      ((preamble ++ form_page ++ display_results label probability)%list,
       St.Completed, p2) /\
    St.reads p2 = asset_paths /\
    (classifier_interface m ->
     (label = 0 \/ label = 1) /\ is_probability probability).
Proof.
  intros Hm Hs Hc Hne Hscore.
  eexists; eexists. split; [|split; [|split; [|split]]].
  - unfold script.
    rewrite (load_assets_stored disk St.fresh m sc c eq_refl Hm Hs Hc).
    rewrite (page_ready {| addr := 0; val := m |} {| addr := 1; val := sc |}
               {| addr := 2; val := c |}) by exact Hne.
    reflexivity.
  - reflexivity.
  - unfold script, load_assets.
    rewrite (cache_data_hit _ _ _ _ (Some m, Some sc, Some c)) by reflexivity.
    cbn -[page preamble form_page display_results].
    rewrite (page_ready {| addr := 3; val := m |} {| addr := 4; val := sc |}
               {| addr := 5; val := c |}) by exact Hne.
    cbn [analyze_risk form val]. rewrite Hscore. reflexivity.
  - reflexivity.
  - intros Hmodel. unfold analyze in Hscore. rewrite input_df_eq in Hscore.
    simpl in Hscore.
    destruct (score_inversion _ _ _ _ _ Hscore)
      as [scaled [labels [r [more_rows [p0 [more [Ht [Hl [Hp Hr]]]]]]]]].
    destruct (Hmodel scaled) as [Hlabels Hprobs].
    destruct (Hlabels _ Hl) as [_ Hrange].
    destruct (Hprobs _ Hp) as [_ Hpairs].
    inversion Hrange as [|l0 ls0 Hlabel _]; subst.
    inversion Hpairs as [|r1 rs1 [q0 [q1 [Hq [_ Hq1]]]] _]; subst.
    injection Hq as -> -> ->. split; assumption.
Qed.

Lemma visit_then_analysis_witness :
  full_columns <> [] /\
  analyze strict_stump strict_scaler full_columns second_input =
    Return (1, 0.75%float) /\
  exists p1 p2 : St.Process pickled,
    script {| KNN_heart_pkl := Stored strict_stump;
              scaler_pkl := Stored strict_scaler;
              columns_pkl := Stored full_columns |}
           {| form := default_input; analyze_risk := false |} St.fresh =
      ((preamble ++ form_page)%list, St.Completed, p1) /\
    St.reads p1 = asset_paths /\
    script empty_disk {| form := second_input; analyze_risk := true |} p1 =
      ((preamble ++ form_page ++ display_results 1 0.75)%list,
       St.Completed, p2) /\
    St.reads p2 = asset_paths /\
    (classifier_interface strict_stump ->
     (1 = 0 \/ 1 = 1) /\ is_probability 0.75).
Proof.
  assert (Hne : full_columns <> []) by discriminate.
  assert (Hscore : analyze strict_stump strict_scaler full_columns
                     second_input = Return (1, 0.75%float)).
  { vm_compute. reflexivity. }
  split; [exact Hne|]. split; [exact Hscore|].
  exact (visit_then_analysis
           {| KNN_heart_pkl := Stored strict_stump;
              scaler_pkl := Stored strict_scaler;
              columns_pkl := Stored full_columns |}
           empty_disk default_input second_input strict_stump strict_scaler
           full_columns 1 0.75%float eq_refl eq_refl eq_refl Hne Hscore).
Defined.
